(** * Predictive Maintenance System: the prediction cycle of [app.py]

    A shallow embedding of the Streamlit script [src/app.py]: the feature
    engineering of lines 67-94, the inference calls of lines 99-106, the
    overview, explanation and summary tabs of lines 111-177, and the artifact
    loading of lines 10-12.

    - Python floats are IEEE-754 binary64 numbers, taken from the Standard
      Library's executable specification [SpecFloat] (precision 53, maximal
      exponent 1024, round to nearest even).
    - Python ints are [Z]; strings are [string].
    - The three pickled artifacts, the SHAP library and the operator's widget
      state are the environment of a run; their methods may raise.
    - A run threads a trace of the effects the script performs (artifact
      loads, widget reads, rendered elements) and stops at the first uncaught
      exception.  Sequencing is written with stdpp's monad notations
      [x ← m; k] and [m ;; k]. *)

From Stdlib Require Import ZArith Lia Bool.
From Stdlib Require Import Floats.SpecFloat.
From stdpp Require Import gmap strings list.

Open Scope string_scope.
Open Scope list_scope.
Open Scope Z_scope.

(* ===================================================================== *)
(** ** Binary64 floating point *)
(* ===================================================================== *)

Module F64.

Definition prec : Z := 53.
Definition emax : Z := 1024.

Definition float : Type := spec_float.

(** Python [float(n)] for an int [n], as in a mixed comparison
    [x > 1000] or product [x * 100]. *)
Definition of_Z (n : Z) : float := binary_normalize prec emax n 0 false.

Definition mul (x y : float) : float := SFmul prec emax x y.

(** Python's [x == y], [x < y], [x <= y], [x > y] on floats. *)
Definition eqb (x y : float) : bool := SFeqb x y.
Definition ltb (x y : float) : bool := SFltb x y.
Definition leb (x y : float) : bool := SFleb x y.
Definition gtb (x y : float) : bool := SFltb y x.

Definition is_nan (x : float) : bool :=
  match x with S754_nan => true | _ => false end.

Definition is_finite (x : float) : bool :=
  match x with S754_zero _ | S754_finite _ _ _ => true | _ => false end.

(** The integer part of [(-1)^s * m * 2^e], truncated toward zero. *)
Definition trunc_finite (s : bool) (m : positive) (e : Z) : Z :=
  let a := match e with
           | Z0 => Zpos m
           | Zpos p => Zpos m * 2 ^ Zpos p
           | Zneg p => Zpos m / 2 ^ Zpos p
           end in
  if s then - a else a.

End F64.

Abbreviation float := F64.float.

(* ===================================================================== *)
(** ** Values, data frames and exceptions *)
(* ===================================================================== *)

(** A cell of a data frame, or a class label of the classifier. *)
Inductive value : Type :=
| VStr (s : string)
| VFloat (x : float)
| VInt (n : Z).

(** [pd.DataFrame({...})]: the columns in the insertion order of the dict,
    each with the list of its rows. *)
Definition DataFrame : Type := list (string * list value).

Definition columns (df : DataFrame) : list string := map fst df.

(** [df[name]]: the first column of that name. *)
Fixpoint column (name : string) (df : DataFrame) : option (list value) :=
  match df with
  | [] => None
  | (c, rows) :: rest => if String.eqb c name then Some rows else column name rest
  end.

(** The numeric array a fitted preprocessor produces, row by row. *)
Definition matrix : Type := list (list float).

Inductive exn : Type :=
| KeyError (key : string)
| IndexError
| ValueError
| OverflowError
| StreamlitAPIException
| Raised (name : string)        (* an [Exception] raised by joblib, sklearn, shap *)
| BaseRaised (name : string).   (* a [BaseException] that is no [Exception]   *)

(** What [except Exception] catches. *)
Definition is_Exception (e : exn) : bool :=
  match e with BaseRaised _ => false | _ => true end.

(** A step that returns or raises. *)
Definition result (A : Type) : Type := exn + A.

Definition Ok {A} (a : A) : result A := inr a.
Definition Raise {A} (e : exn) : result A := inl e.

#[global] Instance result_ret : MRet result := fun A a => Ok a.
#[global] Instance result_bind : MBind result := fun A B k r =>
  match r with
  | inr a => k a
  | inl e => Raise e
  end.

(** [xs[i]] for a non-negative constant [i]. *)
Definition getitem {A} (xs : list A) (i : nat) : result A :=
  match xs !! i with
  | Some x => Ok x
  | None => Raise IndexError
  end.

(** [int(x)] on a float: truncation toward zero; [ValueError] on NaN,
    [OverflowError] on an infinity. *)
Definition py_int (x : float) : result Z :=
  match x with
  | S754_nan => Raise ValueError
  | S754_infinity _ => Raise OverflowError
  | S754_zero _ => Ok 0
  | S754_finite s m e => Ok (F64.trunc_finite s m e)
  end.

(* ===================================================================== *)
(** ** The environment of a run *)
(* ===================================================================== *)

(** The three artifacts, as the black boxes the script calls. *)
Record Preprocessor : Type := {
  transform : DataFrame -> result matrix;
  get_feature_names_out : result (list string)
}.

Record Classifier : Type := {
  predict_proba : matrix -> result (list (list float));
  predict : matrix -> result (list value)
}.

Record Regressor : Type := {
  rul_predict : matrix -> result (list float)
}.

(** [joblib.load(file)], per kind of artifact. *)
Record ArtifactStore : Type := {
  load_classifier : string -> result Classifier;
  load_regressor : string -> result Regressor;
  load_preprocessor : string -> result Preprocessor
}.

(** The SHAP library: [shap.TreeExplainer], [explainer.shap_values],
    [explainer.expected_value], [shap.Explanation], [shap.plots.waterfall]. *)
Record Explainer : Type := {
  shap_values : matrix -> result (list (list float));
  expected_value : float
}.

Record Explanation : Type := {
  values : list float;
  base_values : float;
  data : list float;
  feature_names : list string
}.

(** The figure [plt.subplots()] creates and [waterfall] draws on. *)
Inductive Figure : Type :=
| Waterfall (e : Explanation).

Record Shap : Type := {
  TreeExplainer : Classifier -> result Explainer;
  waterfall : Explanation -> result Figure
}.

(** The state of the sidebar widgets when the script runs. *)
Record Inputs : Type := {
  machine_model : string;
  temp : float;
  vibration : float;
  rot_speed : float;
  voltage : float;
  torque : float;
  oil_viscosity : float;
  humidity : float;
  operator_exp : string;
  last_service_days : Z;
  fault_code : string;
  working_hours : Z;
  predict_button : bool
}.

Record Env : Type := {
  store : ArtifactStore;
  shap : Shap;
  ui : Inputs
}.

(* ===================================================================== *)
(** ** Effects: the trace of a run *)
(* ===================================================================== *)

Inductive panel : Type :=
| Main | Sidebar | Tab1 | Tab1Col1 | Tab1Col2 | Tab2 | Tab3.

(** The formatted value of an [st.metric]: [f"{x:.2%}"] and
    [f"{x:.0f} hrs"]. *)
Inductive metric_text : Type :=
| Percent2 (x : float)
| Hours0 (x : float).

Inductive element : Type :=
| st_set_page_config (page_title layout : string)
| st_title (s : string)
| st_header (s : string)
| st_subheader (s : string)
| st_write (s : string)
| st_markdown (s : string)
| st_tabs (names : list string)
| st_columns (n : Z)
| st_metric (label : string) (v : metric_text)
| st_progress (n : Z)
| st_success (s : string)
| st_info (s : string)
| st_warning (s : string)
| st_error (s : string)
| st_pyplot (fig : Figure).

Inductive event : Type :=
| Load (file : string)               (* [joblib.load(file)] is attempted *)
| Input (label : string)             (* a sidebar widget is shown and read *)
| Render (p : panel) (e : element).  (* an element is shown *)

Definition trace : Type := list event.

(** A computation of the script: it extends the trace and either returns a
    value or stops with an uncaught exception. *)
Definition M (A : Type) : Type := trace -> result A * trace.

#[global] Instance M_ret : MRet M := fun A a tr => (Ok a, tr).
#[global] Instance M_bind : MBind M := fun A B k m tr =>
  match m tr with
  | (inr a, tr') => k a tr'
  | (inl e, tr') => (Raise e, tr')
  end.
#[global] Instance M_throw : MThrow exn M := fun A e tr => (Raise e, tr).

(** The result of an external call or of a fallible pure step. *)
Definition call {A} (r : result A) : M A := fun tr => (r, tr).

Definition emit (ev : event) : M unit := fun tr => (Ok tt, tr ++ [ev]).

Definition render (p : panel) (e : element) : M unit := emit (Render p e).

(** [try: body except Exception: handler]. *)
Definition try_except {A} (body handler : M A) : M A :=
  fun tr =>
    match body tr with
    | (inl e, tr') => if is_Exception e then handler tr' else (Raise e, tr')
    | (inr a, tr') => (Ok a, tr')
    end.

(** [st.progress(n)] for an int [n]: Streamlit accepts 0..100 and raises
    otherwise. *)
Definition progress (p : panel) (n : Z) : M unit :=
  if (0 <=? n) && (n <=? 100) then render p (st_progress n)
  else mthrow StreamlitAPIException.

(** [st.sidebar.selectbox], [st.sidebar.number_input], [st.sidebar.button]:
    the widget is shown and its current state returned. *)
Definition widget {A} (label : string) (state : A) : M A :=
  emit (Input label) ;; mret state.

(* ===================================================================== *)
(** ** Feature engineering (lines 67-94) *)
(* ===================================================================== *)

Definition stress_index (torque vibration : float) : float :=
  F64.mul torque vibration.

(** The single input case: the rolling average is the reading itself. *)
Definition rolling_avg_temp (temp : float) : float := temp.

Definition machine_age (working_hours : Z) : Z := working_hours.

(** [{"Junior": 1, "Mid": 2, "Senior": 3}], the keys inserted in order. *)
Definition exp_map : gmap string Z :=
  <["Senior" := 3]> (<["Mid" := 2]> (<["Junior" := 1]> ∅)).

(** [exp_map[operator_exp]]; a key that is absent raises [KeyError]. *)
Definition operator_level (operator_exp : string) : result Z :=
  match exp_map !! operator_exp with
  | Some level => Ok level
  | None => Raise (KeyError operator_exp)
  end.

(** The one-row frame handed to the preprocessor. *)
Definition input_df (i : Inputs) (rolling_avg_temp stress_index : float)
    (machine_age operator_level : Z) : DataFrame :=
  [ ("Machine_Model", [VStr (machine_model i)]);
    ("Avg_Temperature", [VFloat (temp i)]);
    ("Vibration_Level", [VFloat (vibration i)]);
    ("Rotating_Speed", [VFloat (rot_speed i)]);
    ("Voltage_Fluctuation", [VFloat (voltage i)]);
    ("Torque_Nm", [VFloat (torque i)]);
    ("Oil_Viscosity", [VFloat (oil_viscosity i)]);
    ("Ambient_Humidity", [VFloat (humidity i)]);
    ("Operator_Experience", [VStr (operator_exp i)]);
    ("Last_Service_Days", [VInt (last_service_days i)]);
    ("Fault_Code", [VStr (fault_code i)]);
    ("Working_Hours_Total", [VInt (working_hours i)]);
    ("Rolling_Avg_Temp", [VFloat rolling_avg_temp]);
    ("Stress_Index", [VFloat stress_index]);
    ("Machine_Age", [VInt machine_age]);
    ("Operator_Experience_Level", [VInt operator_level]) ].

Definition feature_engineering (i : Inputs) : M DataFrame :=
  let stress_index := stress_index (torque i) (vibration i) in
  let rolling_avg_temp := rolling_avg_temp (temp i) in
  let machine_age := machine_age (working_hours i) in
  operator_level ← call (operator_level (operator_exp i));
  mret (input_df i rolling_avg_temp stress_index machine_age operator_level).

(* ===================================================================== *)
(** ** Inference (lines 99-106) *)
(* ===================================================================== *)

Record Prediction : Type := {
  X_input : matrix;
  probability : float;
  predicted_class : value;
  rul_prediction : float
}.

Definition infer (preprocessor : Preprocessor) (model : Classifier)
    (rul_model : Regressor) (df : DataFrame) : result Prediction :=
  X ← transform preprocessor df;
  proba ← predict_proba model X;
  row ← getitem proba 0;
  probability ← getitem row 1;
  labels ← predict model X;
  predicted_class ← getitem labels 0;
  ruls ← rul_predict rul_model X;
  rul_prediction ← getitem ruls 0;
  mret {| X_input := X; probability := probability;
          predicted_class := predicted_class;
          rul_prediction := rul_prediction |}.

(* ===================================================================== *)
(** ** Presentation (lines 111-177) *)
(* ===================================================================== *)

(** [predicted_class == 0] on a label of any type. *)
Definition class_is_zero (c : value) : bool :=
  match c with
  | VInt n => n =? 0
  | VFloat x => F64.eqb x (F64.of_Z 0)
  | VStr _ => false
  end.

Definition healthy : element :=
  st_success "Healthy - No immediate maintenance required.".
Definition high_risk : element :=
  st_error "High Risk of Failure - Immediate maintenance required.".

Definition health_status (predicted_class : value) : element :=
  if class_is_zero predicted_class then healthy else high_risk.

Definition sufficient_life : element :=
  st_info "Machine has sufficient remaining life.".
Definition preventive_soon : element :=
  st_warning "Preventive maintenance recommended soon.".
Definition critically_low : element :=
  st_error "Remaining useful life critically low.".

Definition rul_advisory (rul_prediction : float) : element :=
  if F64.gtb rul_prediction (F64.of_Z 1000) then sufficient_life
  else if F64.gtb rul_prediction (F64.of_Z 300) then preventive_soon
  else critically_low.

Definition overview (r : Prediction) : M unit :=
  render Tab1 (st_columns 2) ;;
  render Tab1Col1 (st_subheader "Failure Probability") ;;
  render Tab1Col1
    (st_metric "Probability of Failure (Next 24H)" (Percent2 (probability r))) ;;
  percent ← call (py_int (F64.mul (probability r) (F64.of_Z 100)));
  progress Tab1Col1 percent ;;
  render Tab1Col2 (st_subheader "Remaining Useful Life") ;;
  render Tab1Col2
    (st_metric "Estimated Remaining Hours" (Hours0 (rul_prediction r))) ;;
  render Tab1 (st_subheader "Machine Health Status") ;;
  render Tab1 (health_status (predicted_class r)) ;;
  render Tab1 (rul_advisory (rul_prediction r)).

Definition shap_fallback : element :=
  st_write "SHAP explanation not available for this model type.".

(** The figure of the [try] of lines 146-159. *)
Definition explain (sh : Shap) (preprocessor : Preprocessor)
    (model : Classifier) (X : matrix) : result Figure :=
  explainer ← TreeExplainer sh model;
  shap_values ← shap_values explainer X;
  values0 ← getitem shap_values 0;
  data0 ← getitem X 0;
  names ← get_feature_names_out preprocessor;
  waterfall sh {| values := values0;
                  base_values := expected_value explainer;
                  data := data0;
                  feature_names := names |}.

Definition explainability (sh : Shap) (preprocessor : Preprocessor)
    (model : Classifier) (X : matrix) : M unit :=
  render Tab2 (st_subheader "Prediction Explanation (SHAP)") ;;
  try_except
    (fig ← call (explain sh preprocessor model X); render Tab2 (st_pyplot fig))
    (render Tab2 shap_fallback).

Definition model_info : M unit :=
  render Tab3 (st_subheader "System Summary") ;;
  render Tab3 (st_write "• Classification model predicts probability of machine failure within the next 24 hours.") ;;
  render Tab3 (st_write "• Regression model estimates Remaining Useful Life (RUL).") ;;
  render Tab3 (st_write "• Feature engineering includes Stress Index and rolling metrics.") ;;
  render Tab3 (st_write "• Health status is determined using the model's predicted class output.") ;;
  render Tab3 (st_write "• SHAP is used for local explainability of predictions.").

(** The branch of [if predict_button:]. *)
Definition prediction_cycle (sh : Shap) (preprocessor : Preprocessor)
    (model : Classifier) (rul_model : Regressor) (i : Inputs) : M unit :=
  df ← feature_engineering i;
  r ← call (infer preprocessor model rul_model df);
  overview r ;;
  explainability sh preprocessor model (X_input r) ;;
  model_info.

(* ===================================================================== *)
(** ** The script, top to bottom *)
(* ===================================================================== *)

Definition joblib_load {A} (load : string -> result A) (file : string) : M A :=
  emit (Load file) ;; call (load file).

Definition sidebar (i : Inputs) : M Inputs :=
  render Sidebar (st_header "Machine Inputs") ;;
  machine_model ← widget "Machine Model" (machine_model i);
  temp ← widget "Average Temperature (°C)" (temp i);
  vibration ← widget "Vibration Level" (vibration i);
  rot_speed ← widget "Rotating Speed (RPM)" (rot_speed i);
  voltage ← widget "Voltage Fluctuation" (voltage i);
  torque ← widget "Torque (Nm)" (torque i);
  oil_viscosity ← widget "Oil Viscosity" (oil_viscosity i);
  humidity ← widget "Ambient Humidity (%)" (humidity i);
  operator_exp ← widget "Operator Experience" (operator_exp i);
  last_service_days ← widget "Days Since Last Service" (last_service_days i);
  fault_code ← widget "Fault Code" (fault_code i);
  working_hours ← widget "Total Working Hours" (working_hours i);
  predict_button ← widget "Predict Machine Health" (predict_button i);
  mret {| machine_model := machine_model; temp := temp;
          vibration := vibration; rot_speed := rot_speed;
          voltage := voltage; torque := torque;
          oil_viscosity := oil_viscosity; humidity := humidity;
          operator_exp := operator_exp;
          last_service_days := last_service_days;
          fault_code := fault_code; working_hours := working_hours;
          predict_button := predict_button |}.

Definition idle_hint : element :=
  st_info "Enter machine parameters and click 'Predict Machine Health'.".

Definition app (env : Env) : M unit :=
  model ← joblib_load (load_classifier (store env)) "best_model.pkl";
  rul_model ← joblib_load (load_regressor (store env)) "rul_model.pkl";
  preprocessor ← joblib_load (load_preprocessor (store env)) "preprocessor.pkl";
  render Main (st_set_page_config "Predictive Maintenance System" "wide") ;;
  render Main (st_title "Predictive Maintenance System") ;;
  render Main (st_write "AI-driven industrial machine health monitoring and failure prediction.") ;;
  i ← sidebar (ui env);
  render Main (st_tabs ["Overview"; "Explainability"; "Model Info"]) ;;
  (if predict_button i
   then prediction_cycle (shap env) preprocessor model rul_model i
   else render Main idle_hint) ;;
  render Main (st_markdown "---") ;;
  render Main (st_write "Industrial Predictive Maintenance powered by Machine Learning.").

(** One execution of the script from an empty page. *)
Definition run (env : Env) : result unit * trace := app env [].

(* ===================================================================== *)
(** ** What a run shows *)
(* ===================================================================== *)

Definition loads : trace :=
  [ Load "best_model.pkl"; Load "rul_model.pkl"; Load "preprocessor.pkl" ].

Definition page_head : trace :=
  [ Render Main (st_set_page_config "Predictive Maintenance System" "wide");
    Render Main (st_title "Predictive Maintenance System");
    Render Main (st_write "AI-driven industrial machine health monitoring and failure prediction.") ].

Definition sidebar_events : trace :=
  [ Render Sidebar (st_header "Machine Inputs");
    Input "Machine Model"; Input "Average Temperature (°C)";
    Input "Vibration Level"; Input "Rotating Speed (RPM)";
    Input "Voltage Fluctuation"; Input "Torque (Nm)"; Input "Oil Viscosity";
    Input "Ambient Humidity (%)"; Input "Operator Experience";
    Input "Days Since Last Service"; Input "Fault Code";
    Input "Total Working Hours"; Input "Predict Machine Health" ].

Definition tabs_event : trace :=
  [ Render Main (st_tabs ["Overview"; "Explainability"; "Model Info"]) ].

(** The overview tab of a prediction whose progress bar stands at [percent]. *)
Definition overview_events (r : Prediction) (percent : Z) : trace :=
  [ Render Tab1 (st_columns 2);
    Render Tab1Col1 (st_subheader "Failure Probability");
    Render Tab1Col1
      (st_metric "Probability of Failure (Next 24H)" (Percent2 (probability r)));
    Render Tab1Col1 (st_progress percent);
    Render Tab1Col2 (st_subheader "Remaining Useful Life");
    Render Tab1Col2
      (st_metric "Estimated Remaining Hours" (Hours0 (rul_prediction r)));
    Render Tab1 (st_subheader "Machine Health Status");
    Render Tab1 (health_status (predicted_class r));
    Render Tab1 (rul_advisory (rul_prediction r)) ].

Definition explanation_fallback_events : trace :=
  [ Render Tab2 (st_subheader "Prediction Explanation (SHAP)");
    Render Tab2 shap_fallback ].

Definition model_info_events : trace := snd (model_info []).

Definition page_foot : trace :=
  [ Render Main (st_markdown "---");
    Render Main (st_write "Industrial Predictive Maintenance powered by Machine Learning.") ].

Definition is_load (ev : event) : bool :=
  match ev with Load _ => true | _ => false end.

Definition is_input (ev : event) : bool :=
  match ev with Input _ => true | _ => false end.

(** The three tabs hold what a prediction cycle shows; nothing else is
    rendered there. *)
Definition in_tabs (p : panel) : bool :=
  match p with Main | Sidebar => false | _ => true end.

Definition shows_result (ev : event) : bool :=
  match ev with Render p _ => in_tabs p | _ => false end.

(** [m] only appends to the trace, and only events that satisfy [P]. *)
Definition emits {A} (P : event -> bool) (m : M A) : Prop :=
  forall tr, exists evs, snd (m tr) = tr ++ evs /\ forallb P evs = true.

Definition not_load (ev : event) : bool := negb (is_load ev).

(* ===================================================================== *)
(** ** The data model of the specification (section 3) *)
(* ===================================================================== *)

Module Spec.

Definition in_range (lo hi : Z) (x : float) : bool :=
  F64.leb (F64.of_Z lo) x && F64.leb x (F64.of_Z hi).

Definition int_in_range (lo hi n : Z) : bool := (lo <=? n) && (n <=? hi).

Definition one_of (options : list string) (s : string) : bool :=
  existsb (String.eqb s) options.

(** The domains of the twelve operator-entered fields; they are the
    options and bounds of the sidebar widgets of lines 24-53. *)
Definition valid_inputs (i : Inputs) : bool :=
  one_of ["Model_A"; "Model_B"; "Model_C"] (machine_model i)
  && in_range 0 150 (temp i)
  && in_range 0 20 (vibration i)
  && in_range 0 6000 (rot_speed i)
  && in_range 0 300 (voltage i)
  && in_range 0 200 (torque i)
  && in_range 0 100 (oil_viscosity i)
  && in_range 0 100 (humidity i)
  && one_of ["Junior"; "Mid"; "Senior"] (operator_exp i)
  && int_in_range 0 1000 (last_service_days i)
  && one_of ["None"; "E101"; "E202"] (fault_code i)
  && int_in_range 0 50000 (working_hours i).

Inductive field_type : Type := categorical | floating | integer.

Definition has_type (t : field_type) (v : value) : bool :=
  match t, v with
  | categorical, VStr _ | floating, VFloat _ | integer, VInt _ => true
  | _, _ => false
  end.

(** The table of section 3, row by row. *)
Definition fields : list (string * field_type) :=
  [ ("Machine_Model", categorical);
    ("Avg_Temperature", floating);
    ("Vibration_Level", floating);
    ("Rotating_Speed", floating);
    ("Voltage_Fluctuation", floating);
    ("Torque_Nm", floating);
    ("Oil_Viscosity", floating);
    ("Ambient_Humidity", floating);
    ("Operator_Experience", categorical);
    ("Last_Service_Days", integer);
    ("Fault_Code", categorical);
    ("Working_Hours_Total", integer);
    ("Rolling_Avg_Temp", floating);
    ("Stress_Index", floating);
    ("Machine_Age", integer);
    ("Operator_Experience_Level", integer) ].

(** The ordinal of section 3: Junior 1, Mid 2, Senior 3, nothing else. *)
Definition experience_level (s : string) : option Z :=
  if String.eqb s "Junior" then Some 1
  else if String.eqb s "Mid" then Some 2
  else if String.eqb s "Senior" then Some 3
  else None.

(** The value section 3 gives each field of an Observation. *)
Definition field_value (i : Inputs) (name : string) : option value :=
  if String.eqb name "Machine_Model" then Some (VStr (machine_model i))
  else if String.eqb name "Avg_Temperature" then Some (VFloat (temp i))
  else if String.eqb name "Vibration_Level" then Some (VFloat (vibration i))
  else if String.eqb name "Rotating_Speed" then Some (VFloat (rot_speed i))
  else if String.eqb name "Voltage_Fluctuation" then Some (VFloat (voltage i))
  else if String.eqb name "Torque_Nm" then Some (VFloat (torque i))
  else if String.eqb name "Oil_Viscosity" then Some (VFloat (oil_viscosity i))
  else if String.eqb name "Ambient_Humidity" then Some (VFloat (humidity i))
  else if String.eqb name "Operator_Experience" then Some (VStr (operator_exp i))
  else if String.eqb name "Last_Service_Days" then Some (VInt (last_service_days i))
  else if String.eqb name "Fault_Code" then Some (VStr (fault_code i))
  else if String.eqb name "Working_Hours_Total" then Some (VInt (working_hours i))
  else if String.eqb name "Rolling_Avg_Temp" then Some (VFloat (temp i))
  else if String.eqb name "Stress_Index"
    then Some (VFloat (F64.mul (torque i) (vibration i)))
  else if String.eqb name "Machine_Age" then Some (VInt (working_hours i))
  else if String.eqb name "Operator_Experience_Level"
    then VInt <$> experience_level (operator_exp i)
  else None.

(** The contract of section 4.2 on the classifier's answers. *)
Definition in_unit_interval (p : float) : bool :=
  F64.leb (F64.of_Z 0) p && F64.leb p (F64.of_Z 1).


(** The Observation of section 3: one row, the sixteen fields in the
    order of the table. *)
Fixpoint observation_of (i : Inputs) (names : list string) : option DataFrame :=
  match names with
  | [] => Some []
  | name :: rest =>
      v ← field_value i name;
      df ← observation_of i rest;
      Some ((name, [v]) :: df)
  end.

Definition observation (i : Inputs) : option DataFrame :=
  observation_of i (map fst fields).

End Spec.

(* ===================================================================== *)
(** ** Stub artifacts and sample readings *)
(* ===================================================================== *)

Module Sample.

(** [m * 2^e], rounded to the nearest double. *)
Definition dyadic (m e : Z) : float := binary_normalize F64.prec F64.emax m e false.

(** The double nearest 1000.01. *)
Definition just_above_1000 : float := dyadic 8796180983138222 (-43).

(** Scenario 1 of section 8, the predict button pressed. *)
Definition scenario1 : Inputs :=
  {| machine_model := "Model_A"; temp := F64.of_Z 50;
     vibration := F64.of_Z 2; rot_speed := F64.of_Z 1500;
     voltage := F64.of_Z 5; torque := F64.of_Z 100;
     oil_viscosity := F64.of_Z 10; humidity := F64.of_Z 40;
     operator_exp := "Senior"; last_service_days := 30;
     fault_code := "None"; working_hours := 1000;
     predict_button := true |}.

(** A preprocessor fitted on the columns [expected]: a frame that lacks
    one of them is refused, any other is encoded as one row of two
    features. *)
Definition fitted_on (expected : list string) : Preprocessor :=
  {| transform := fun df =>
       if forallb (fun c => existsb (String.eqb c) (columns df)) expected
       then Ok [[F64.of_Z 1; F64.of_Z 2]]
       else Raise (Raised "ValueError: columns are missing");
     get_feature_names_out := Ok ["f0"; "f1"] |}.

Definition preprocessor : Preprocessor := fitted_on (map fst Spec.fields).

(** A classifier that answers every row with the probabilities [p0], [p1]
    and the label [label]. *)
Definition classifier (p0 p1 : float) (label : value) : Classifier :=
  {| predict_proba := fun X => Ok [[p0; p1]];
     predict := fun X => Ok [label] |}.

Definition regressor (rul : float) : Regressor :=
  {| rul_predict := fun X => Ok [rul] |}.

Definition store_of (c : Classifier) (r : Regressor) (p : Preprocessor) :
    ArtifactStore :=
  {| load_classifier := fun _ => Ok c;
     load_regressor := fun _ => Ok r;
     load_preprocessor := fun _ => Ok p |}.

(** A store whose regressor file is missing. *)
Definition store_without_rul (c : Classifier) (p : Preprocessor) :
    ArtifactStore :=
  {| load_classifier := fun _ => Ok c;
     load_regressor := fun _ => Raise (Raised "FileNotFoundError");
     load_preprocessor := fun _ => Ok p |}.

(** SHAP facing a model that is not tree based. *)
Definition shap_no_tree : Shap :=
  {| TreeExplainer := fun _ => Raise (Raised "InvalidModelError");
     waterfall := fun e => Ok (Waterfall e) |}.

(** SHAP facing a tree model: constant attributions. *)
Definition shap_tree : Shap :=
  {| TreeExplainer := fun _ =>
       Ok {| shap_values := fun X => Ok [[F64.of_Z 0; F64.of_Z 0]];
             expected_value := F64.of_Z 0 |};
     waterfall := fun e => Ok (Waterfall e) |}.

(** A healthy machine: failure probability 0.25, class 0, 1500 hours. *)
Definition healthy_model : Classifier :=
  classifier (dyadic 3 (-2)) (dyadic 1 (-2)) (VInt 0).

Definition env_no_tree : Env :=
  {| store := store_of healthy_model (regressor (F64.of_Z 1500)) preprocessor;
     shap := shap_no_tree;
     ui := scenario1 |}.

Definition env_missing_artifact : Env :=
  {| store := store_without_rul healthy_model preprocessor;
     shap := shap_tree;
     ui := scenario1 |}.


(** Scenario 1 with a tree model behind SHAP. *)
Definition env_tree : Env :=
  {| store := store_of healthy_model (regressor (F64.of_Z 1500)) preprocessor;
     shap := shap_tree;
     ui := scenario1 |}.

(** SHAP interrupted from the keyboard. *)
Definition shap_interrupted : Shap :=
  {| TreeExplainer := fun _ => Raise (BaseRaised "KeyboardInterrupt");
     waterfall := fun e => Ok (Waterfall e) |}.

(** The same readings, the predict button not pressed. *)
Definition scenario1_idle : Inputs :=
  {| machine_model := "Model_A"; temp := F64.of_Z 50;
     vibration := F64.of_Z 2; rot_speed := F64.of_Z 1500;
     voltage := F64.of_Z 5; torque := F64.of_Z 100;
     oil_viscosity := F64.of_Z 10; humidity := F64.of_Z 40;
     operator_exp := "Senior"; last_service_days := 30;
     fault_code := "None"; working_hours := 1000;
     predict_button := false |}.

Definition env_idle : Env :=
  {| store := store_of healthy_model (regressor (F64.of_Z 1500)) preprocessor;
     shap := shap_tree;
     ui := scenario1_idle |}.

End Sample.

(* ===================================================================== *)
(** ** Well-formed doubles, quiet events and further sample artifacts *)
(* ===================================================================== *)

(** The values a binary64 number can take: the mantissa of a finite one is
    canonical for its exponent. *)
Definition valid_double (x : float) : bool :=
  valid_binary F64.prec F64.emax x.

(** Neither an artifact load nor a widget read. *)
Definition quiet (ev : event) : bool := negb (is_load ev) && negb (is_input ev).

(** What the overview tab holds when line 118 raises: the column layout, the
    heading and the probability metric. *)
Definition overview_head (r : Prediction) : trace :=
  [ Render Tab1 (st_columns 2);
    Render Tab1Col1 (st_subheader "Failure Probability");
    Render Tab1Col1
      (st_metric "Probability of Failure (Next 24H)" (Percent2 (probability r))) ].

Module Cases.

(** A classifier fitted on one class only: a single probability column. *)
Definition one_class_model : Classifier :=
  {| predict_proba := fun X => Ok [[F64.of_Z 1]];
     predict := fun X => Ok [VInt 0] |}.

Definition regressor_down : Regressor :=
  {| rul_predict := fun X => Raise (Raised "NotFittedError") |}.

Definition env_regressor_down : Env :=
  {| store := Sample.store_of Sample.healthy_model regressor_down
                Sample.preprocessor;
     shap := Sample.shap_tree;
     ui := Sample.scenario1 |}.

(** Predictions with the failure probability 0.25, NaN and 1.5. *)
Definition prediction_with (p : float) : Prediction :=
  {| X_input := [[F64.of_Z 1; F64.of_Z 2]];
     probability := p;
     predicted_class := VInt 0;
     rul_prediction := F64.of_Z 1500 |}.

Definition quarter : float := Sample.dyadic 1 (-2).
Definition one_and_a_half : float := Sample.dyadic 3 (-1).

End Cases.

(* ===================================================================== *)
(** ** The fitted preprocessor *)
(* ===================================================================== *)

(** Two column lists match when they hold the same names in the same
    order. *)
Fixpoint same_columns (xs ys : list string) : bool :=
  match xs, ys with
  | [], [] => true
  | x :: xs', y :: ys' => String.eqb x y && same_columns xs' ys'
  | _, _ => false
  end.

Definition schema_error : exn := Raised "ValueError: schema mismatch".

(** Modelled from the spec: the fitted preprocessor stored in
    [preprocessor.pkl], which is not under [src/].  Section 4.2: the
    preprocessor has expected columns, and if they do not match the
    Observation's fields its transform fails with a shape/schema error;
    section 3: column names and order must match exactly.  When they match,
    the row is encoded by [encode]. *)
Definition fitted_preprocessor (expected : list string)
    (encode : DataFrame -> result matrix) (names : result (list string)) :
    Preprocessor :=
  {| transform := fun df =>
       if same_columns expected (columns df) then encode df
       else Raise schema_error;
     get_feature_names_out := names |}.

Module Schema.

Definition encode : DataFrame -> result matrix :=
  fun df => Ok [[F64.of_Z 1; F64.of_Z 2]].

(** A preprocessor fitted with a derived field the Observation lacks. *)
Definition with_missing_field : Preprocessor :=
  fitted_preprocessor ("Humidity_Index" :: map fst Spec.fields) encode
                      (Ok ["f0"; "f1"]).

Definition env_missing_field : Env :=
  {| store := Sample.store_of Sample.healthy_model
                (Sample.regressor (F64.of_Z 1500)) with_missing_field;
     shap := Sample.shap_tree;
     ui := Sample.scenario1 |}.

End Schema.

(* ===================================================================== *)
(** ** Sessions *)
(* ===================================================================== *)

(** Streamlit executes the script from top to bottom when the page is
    opened, and once more on every interaction with a widget; each execution
    meets the artifact files and the widget state of its moment, and an
    execution that raised does not keep the next one from starting.  A
    session is the list of the environments of its executions, in order. *)
Definition session (envs : list Env) : list (result unit * trace) :=
  map run envs.

(** Everything the process does during a session, in order. *)
Definition session_trace (envs : list Env) : trace :=
  concat (map snd (session envs)).

(** The button reads [True] only in the execution its click triggers: the
    execution that opens the page finds it not pressed. *)
Definition opens_idle (envs : list Env) : bool :=
  match envs with
  | [] => true
  | env :: _ => negb (predict_button (ui env))
  end.

Definition loads_succeed (env : Env) : bool :=
  match load_classifier (store env) "best_model.pkl",
        load_regressor (store env) "rul_model.pkl",
        load_preprocessor (store env) "preprocessor.pkl" with
  | inr _, inr _, inr _ => true
  | _, _, _ => false
  end.

(** One execution loads the three artifacts first, once each and in order;
    a load that raises ends the execution there, with nothing but the loads
    attempted so far in its trace; after three successful loads the rest of
    the execution loads nothing. *)
Definition loads_first (env : Env) : Prop :=
  match load_classifier (store env) "best_model.pkl",
        load_regressor (store env) "rul_model.pkl",
        load_preprocessor (store env) "preprocessor.pkl" with
  | inl e, _, _ =>
      run env = (Raise e, [Load "best_model.pkl"])
  | inr _, inl e, _ =>
      run env = (Raise e, [Load "best_model.pkl"; Load "rul_model.pkl"])
  | inr _, inr _, inl e =>
      run env = (Raise e, loads)
  | inr _, inr _, inr _ =>
      exists rest,
        snd (run env) = loads ++ rest /\ forallb not_load rest = true
  end.

(* ===================================================================== *)
(** * Facts about binary64 comparison and multiplication *)
(* ===================================================================== *)

Module F64Facts.
Import F64.

Lemma compare_antisym (x y : float) :
  SFcompare y x = option_map CompOpp (SFcompare x y).
Proof.
  destruct x as [sx|sx| |sx mx ex], y as [sy|sy| |sy my ey]; simpl;
    try reflexivity;
    try (destruct sx; reflexivity); try (destruct sy; reflexivity);
    try (destruct sx, sy; reflexivity).
  destruct sx, sy; simpl; try reflexivity; f_equal;
    rewrite (Z.compare_antisym ex ey);
    destruct (ex ?= ey) eqn:E; simpl; try reflexivity.
  - f_equal. symmetry. exact (Pos.compare_cont_antisym mx my Eq).
  - symmetry. exact (Pos.compare_cont_antisym mx my Eq).
Qed.

(** [x <= y] excludes [x > y]. *)
Lemma leb_not_gtb (x y : float) : leb x y = true -> gtb x y = false.
Proof.
  unfold leb, gtb, SFleb, SFltb. rewrite (compare_antisym x y).
  destruct (SFcompare x y) as [[ | | ]|]; simpl; congruence.
Qed.

Lemma gtb_not_leb (x y : float) : gtb x y = true -> leb x y = false.
Proof.
  unfold leb, gtb, SFleb, SFltb. rewrite (compare_antisym x y).
  destruct (SFcompare x y) as [[ | | ]|]; simpl; congruence.
Qed.

(** On numbers the order is total: [x > y] or [x <= y]. *)
Lemma not_gtb_leb (x y : float) :
  is_nan x = false -> is_nan y = false -> gtb x y = false -> leb x y = true.
Proof.
  unfold leb, gtb, SFleb, SFltb. rewrite (compare_antisym x y).
  destruct x, y; simpl; try discriminate;
    repeat match goal with s : bool |- _ => destruct s end; simpl;
    try congruence; intros _ _;
    match goal with
    | |- context [?a ?= ?b] => destruct (a ?= b); simpl; try congruence
    end;
    match goal with
    | |- context [Pos.compare_cont Eq ?a ?b] =>
        destruct (Pos.compare_cont Eq a b); simpl; congruence
    end.
Qed.

Lemma gtb_not_nan (x y : float) : gtb x y = true -> is_nan x = false.
Proof.
  destruct x; simpl; trivial. unfold gtb, SFltb. destruct y; discriminate.
Qed.

Lemma leb_not_nan (x y : float) : leb x y = true -> is_nan x = false.
Proof. destruct x; simpl; trivial. discriminate. Qed.

Lemma eqb_refl (x : float) : is_nan x = false -> eqb x x = true.
Proof.
  destruct x as [s|s| |s m e]; simpl; try congruence; intros _;
    unfold eqb, SFeqb; simpl.
  - reflexivity.
  - now destruct s.
  - destruct s; rewrite Z.compare_refl, Pos.compare_cont_refl; reflexivity.
Qed.

(** Between two finite bounds there are only finite numbers. *)
Lemma between_finite (a b x : float) :
  is_finite a = true -> is_finite b = true ->
  leb a x = true -> leb x b = true -> is_finite x = true.
Proof.
  destruct a as [sa|sa| |sa ma ea], b as [sb|sb| |sb mb eb]; simpl;
    try discriminate; intros _ _;
    destruct x as [s|s| |s m e]; simpl; try reflexivity;
    unfold leb, SFleb; simpl; try discriminate;
    destruct s; simpl; try discriminate;
    try (destruct sa; discriminate); try (destruct sb; discriminate).
Qed.

Lemma finite_not_nan (x : float) : is_finite x = true -> is_nan x = false.
Proof. destruct x; simpl; congruence. Qed.

Ltac compare_cases :=
  repeat match goal with
  | H : context [Pos.compare_cont Eq ?a ?b] |- _ =>
      change (Pos.compare_cont Eq a b) with (Z.pos a ?= Z.pos b) in H
  | |- context [Pos.compare_cont Eq ?a ?b] =>
      change (Pos.compare_cont Eq a b) with (Z.pos a ?= Z.pos b)
  end;
  repeat match goal with
  | H : context [?a ?= ?b] |- _ =>
      destruct (Z.compare_spec a b); simpl in H; try discriminate H
  | |- context [?a ?= ?b] =>
      destruct (Z.compare_spec a b); simpl
  | H : context [(?a ?= ?b)%positive] |- _ =>
      destruct (Pos.compare_spec a b); simpl in H; try discriminate H
  | |- context [(?a ?= ?b)%positive] =>
      destruct (Pos.compare_spec a b); simpl
  end.

(** [x <= y < z] gives [x < z]. *)
Lemma leb_ltb_trans (x y z : float) :
  leb x y = true -> ltb y z = true -> ltb x z = true.
Proof.
  unfold leb, ltb, SFleb, SFltb.
  destruct x as [sx|sx| |sx mx ex], y as [sy|sy| |sy my ey],
    z as [sz|sz| |sz mz ez]; simpl; try discriminate;
    repeat match goal with s : bool |- _ => destruct s end; simpl;
    try discriminate; try reflexivity; intros H1 H2;
    compare_cases; try reflexivity; try lia; try congruence.
Qed.

Lemma ltb_leb (x y : float) : ltb x y = true -> leb x y = true.
Proof.
  unfold leb, ltb, SFleb, SFltb.
  destruct (SFcompare x y) as [[ | | ]|]; congruence.
Qed.

(** Shifting and rounding keep a mantissa non-negative, so a rounded
    product is a number. *)
Lemma shr_1_nonneg (mrs : shr_record) :
  0 <= shr_m mrs -> 0 <= shr_m (shr_1 mrs).
Proof.
  destruct mrs as [m r s]; simpl.
  destruct m as [|[p|p|]|[p|p|]]; simpl; lia.
Qed.

Lemma iter_shr_1_nonneg (n : positive) :
  forall mrs, 0 <= shr_m mrs -> 0 <= shr_m (SpecFloat.iter_pos shr_1 n mrs).
Proof.
  induction n as [n IH|n IH|]; simpl; intros mrs H.
  - apply IH, IH, shr_1_nonneg, H.
  - apply IH, IH, H.
  - apply shr_1_nonneg, H.
Qed.

Lemma shr_nonneg (mrs : shr_record) (e n : Z) :
  0 <= shr_m mrs -> 0 <= shr_m (fst (shr mrs e n)).
Proof.
  destruct n; simpl; trivial. apply iter_shr_1_nonneg.
Qed.

Lemma shr_fexp_nonneg (m e : Z) (l : location) :
  0 <= m -> 0 <= shr_m (fst (shr_fexp prec emax m e l)).
Proof.
  intros H. unfold shr_fexp. apply shr_nonneg.
  destruct l as [|[ | | ]]; exact H.
Qed.

Lemma round_nearest_even_nonneg (m : Z) (l : location) :
  0 <= m -> 0 <= round_nearest_even m l.
Proof.
  intros H. destruct l as [|[ | | ]]; simpl; try lia.
  destruct (Z.even m); lia.
Qed.

Lemma binary_round_aux_not_nan (s : bool) (m e : Z) (l : location) :
  0 <= m -> is_nan (binary_round_aux prec emax s m e l) = false.
Proof.
  intros H. unfold binary_round_aux.
  pose proof (shr_fexp_nonneg m e l H) as H1.
  destruct (shr_fexp prec emax m e l) as [mrs' e']. simpl in H1.
  pose proof (shr_fexp_nonneg _ e' loc_Exact
                (round_nearest_even_nonneg _ (loc_of_shr_record mrs') H1)) as H2.
  destruct (shr_fexp prec emax _ e' loc_Exact) as [mrs'' e'']. simpl in H2.
  destruct (shr_m mrs'') as [|q|q]; simpl; try reflexivity; try lia.
  destruct (e'' <=? emax - prec); reflexivity.
Qed.

(** The product of two finite numbers is never NaN. *)
Lemma mul_finite_not_nan (x y : float) :
  is_finite x = true -> is_finite y = true -> is_nan (mul x y) = false.
Proof.
  destruct x as [sx|sx| |sx mx ex], y as [sy|sy| |sy my ey]; simpl;
    try discriminate; intros _ _; try reflexivity.
  unfold mul. simpl. apply binary_round_aux_not_nan. lia.
Qed.

End F64Facts.

(* ===================================================================== *)
(** * Sequencing rules of the script monad *)
(* ===================================================================== *)

Section Sequencing.
Context {A B : Type}.

Lemma bind_ok (m : M A) (k : A -> M B) (tr tr' : trace) (a : A) :
  m tr = (Ok a, tr') -> (m ≫= k) tr = k a tr'.
Proof. intros H. unfold mbind, M_bind. now rewrite H. Qed.

Lemma bind_raise (m : M A) (k : A -> M B) (tr tr' : trace) (e : exn) :
  m tr = (Raise e, tr') -> (m ≫= k) tr = (Raise e, tr').
Proof. intros H. unfold mbind, M_bind. now rewrite H. Qed.

Lemma call_run (r : result A) (tr : trace) : call r tr = (r, tr).
Proof. reflexivity. Qed.

Lemma try_except_caught (body handler : M A) (tr tr' : trace) (e : exn) :
  body tr = (Raise e, tr') -> is_Exception e = true ->
  try_except body handler tr = handler tr'.
Proof.
  intros H He. unfold try_except. rewrite H. unfold Raise.
  now rewrite He.
Qed.

Lemma try_except_ok (body handler : M A) (tr tr' : trace) (a : A) :
  body tr = (Ok a, tr') -> try_except body handler tr = (Ok a, tr').
Proof. intros H. unfold try_except. now rewrite H. Qed.

End Sequencing.

Lemma render_run (p : panel) (e : element) (tr : trace) :
  render p e tr = (Ok tt, tr ++ [Render p e]).
Proof. reflexivity. Qed.

Lemma widget_run {A} (label : string) (state : A) (tr : trace) :
  widget label state tr = (Ok state, tr ++ [Input label]).
Proof. reflexivity. Qed.

Lemma joblib_load_run {A} (load : string -> result A) (file : string)
    (tr : trace) :
  joblib_load load file tr = (load file, tr ++ [Load file]).
Proof. reflexivity. Qed.

(** ** What each block of the page appends *)

Lemma sidebar_run (i : Inputs) (tr : trace) :
  sidebar i tr = (Ok i, tr ++ sidebar_events).
Proof.
  destruct i. unfold sidebar, sidebar_events.
  cbv [mbind M_bind mret M_ret render widget emit Ok].
  repeat rewrite <- app_assoc. reflexivity.
Qed.

Lemma model_info_run (tr : trace) :
  model_info tr = (Ok tt, tr ++ model_info_events).
Proof.
  unfold model_info_events, model_info.
  cbv [mbind M_bind render emit Ok snd].
  repeat rewrite <- app_assoc. reflexivity.
Qed.

Lemma overview_run (r : Prediction) (percent : Z) (tr : trace) :
  py_int (F64.mul (probability r) (F64.of_Z 100)) = Ok percent ->
  0 <= percent <= 100 ->
  overview r tr = (Ok tt, tr ++ overview_events r percent).
Proof.
  intros Hp Hr. unfold overview, overview_events, progress.
  assert ((0 <=? percent) && (percent <=? 100) = true) as Hb
    by (apply andb_true_iff; split; apply Z.leb_le; lia).
  cbv [mbind M_bind render emit call]. rewrite Hp. unfold Ok.
  rewrite Hb. repeat rewrite <- app_assoc. reflexivity.
Qed.

Lemma explainability_fallback (sh : Shap) (pre : Preprocessor)
    (model : Classifier) (X : matrix) (e : exn) (tr : trace) :
  explain sh pre model X = Raise e -> is_Exception e = true ->
  explainability sh pre model X tr
  = (Ok tt, tr ++ explanation_fallback_events).
Proof.
  intros He Hc. unfold explainability, explanation_fallback_events.
  erewrite bind_ok by apply render_run.
  erewrite try_except_caught;
    [| apply bind_raise; rewrite He; reflexivity | exact Hc].
  rewrite render_run, <- app_assoc. reflexivity.
Qed.

Lemma explainability_plot (sh : Shap) (pre : Preprocessor)
    (model : Classifier) (X : matrix) (fig : Figure) (tr : trace) :
  explain sh pre model X = Ok fig ->
  explainability sh pre model X tr
  = (Ok tt, tr ++ [ Render Tab2 (st_subheader "Prediction Explanation (SHAP)");
                    Render Tab2 (st_pyplot fig) ]).
Proof.
  intros He. unfold explainability.
  erewrite bind_ok by apply render_run.
  erewrite try_except_ok;
    [| erewrite bind_ok by (rewrite He; reflexivity); apply render_run].
  rewrite <- app_assoc. reflexivity.
Qed.

(* ===================================================================== *)
(** * Feature engineering *)
(* ===================================================================== *)

(** The dict lookup of line 72 against the ordinal of section 3. *)
Lemma operator_level_spec (s : string) :
  operator_level s
  = match Spec.experience_level s with
    | Some level => Ok level
    | None => Raise (KeyError s)
    end.
Proof.
  unfold operator_level, Spec.experience_level, exp_map.
  destruct (String.eqb_spec s "Junior") as [->|HJ]; [reflexivity|].
  destruct (String.eqb_spec s "Mid") as [->|HM]; [reflexivity|].
  destruct (String.eqb_spec s "Senior") as [->|HS]; [reflexivity|].
  rewrite !lookup_insert_ne by congruence. rewrite lookup_empty. reflexivity.
Qed.

Lemma feature_engineering_run (i : Inputs) (tr : trace) :
  feature_engineering i tr
  = (match operator_level (operator_exp i) with
     | inr level =>
         Ok (input_df i (temp i) (F64.mul (torque i) (vibration i))
               (working_hours i) level)
     | inl e => Raise e
     end, tr).
Proof.
  unfold feature_engineering, call. cbv [mbind M_bind mret M_ret].
  destruct (operator_level (operator_exp i)); reflexivity.
Qed.

Lemma one_of_experience (s : string) :
  Spec.one_of ["Junior"; "Mid"; "Senior"] s = true ->
  s = "Junior" \/ s = "Mid" \/ s = "Senior".
Proof.
  unfold Spec.one_of. simpl. rewrite !orb_true_iff, !String.eqb_eq.
  intuition discriminate.
Qed.

Lemma in_range_finite (lo hi : Z) (x : float) :
  F64.is_finite (F64.of_Z lo) = true -> F64.is_finite (F64.of_Z hi) = true ->
  Spec.in_range lo hi x = true -> F64.is_finite x = true.
Proof.
  intros Hlo Hhi H. apply andb_true_iff in H as [H1 H2].
  exact (F64Facts.between_finite _ _ x Hlo Hhi H1 H2).
Qed.

Ltac split_valid H :=
  unfold Spec.valid_inputs in H;
  repeat (apply andb_true_iff in H;
          let H' := fresh "Hv" in destruct H as [H H']).

(** Valid inputs always yield a frame. *)
Lemma valid_operator_level (i : Inputs) :
  Spec.valid_inputs i = true ->
  exists level, operator_level (operator_exp i) = Ok level
                /\ Spec.experience_level (operator_exp i) = Some level.
Proof.
  intros H. split_valid H. rewrite operator_level_spec.
  match goal with
  | Hx : Spec.one_of ["Junior"; "Mid"; "Senior"] _ = true |- _ =>
      destruct (one_of_experience _ Hx) as [E|[E|E]]
  end; rewrite E; eexists; split; reflexivity.
Qed.

(** C2: for every valid Observation the field Stress_Index is the product of
    the fields Torque_Nm and Vibration_Level: it is that very double, and
    Python's [==] between the two evaluates to true. *)
Theorem stress_index_is_torque_times_vibration (i : Inputs) (tr : trace) :
  Spec.valid_inputs i = true ->
  exists df t v s,
    feature_engineering i tr = (Ok df, tr)
    /\ column "Torque_Nm" df = Some [VFloat t]
    /\ column "Vibration_Level" df = Some [VFloat v]
    /\ column "Stress_Index" df = Some [VFloat s]
    /\ s = F64.mul t v
    /\ F64.eqb s (F64.mul t v) = true.
Proof.
  intros H. destruct (valid_operator_level i H) as (level & Hl & _).
  rewrite feature_engineering_run, Hl.
  eexists _, (torque i), (vibration i), _.
  repeat split.
  split_valid H.
  apply F64Facts.eqb_refl, F64Facts.mul_finite_not_nan;
    eapply in_range_finite; try eassumption; reflexivity.
Qed.

Lemma stress_index_scenario1 :
  exists df t v s,
    feature_engineering Sample.scenario1 [] = (Ok df, [])
    /\ column "Torque_Nm" df = Some [VFloat t]
    /\ column "Vibration_Level" df = Some [VFloat v]
    /\ column "Stress_Index" df = Some [VFloat s]
    /\ s = F64.mul t v
    /\ F64.eqb s (F64.mul t v) = true.
Proof.
  apply (stress_index_is_torque_times_vibration Sample.scenario1 []).
  vm_compute. reflexivity.
Defined.

(** C4: for every valid Observation, Machine_Age is Working_Hours_Total and
    Rolling_Avg_Temp is Avg_Temperature (the same value, and equal under
    Python's [==]). *)
Theorem machine_age_and_rolling_avg_temp (i : Inputs) (tr : trace) :
  Spec.valid_inputs i = true ->
  exists df hours avg,
    feature_engineering i tr = (Ok df, tr)
    /\ column "Working_Hours_Total" df = Some [VInt hours]
    /\ column "Machine_Age" df = Some [VInt hours]
    /\ column "Avg_Temperature" df = Some [VFloat avg]
    /\ column "Rolling_Avg_Temp" df = Some [VFloat avg]
    /\ F64.eqb avg avg = true.
Proof.
  intros H. destruct (valid_operator_level i H) as (level & Hl & _).
  rewrite feature_engineering_run, Hl.
  eexists _, (working_hours i), (temp i).
  repeat split.
  split_valid H.
  apply F64Facts.eqb_refl, F64Facts.finite_not_nan.
  eapply in_range_finite; try eassumption; reflexivity.
Qed.

Lemma machine_age_scenario1 :
  exists df hours avg,
    feature_engineering Sample.scenario1 [] = (Ok df, [])
    /\ column "Working_Hours_Total" df = Some [VInt hours]
    /\ column "Machine_Age" df = Some [VInt hours]
    /\ column "Avg_Temperature" df = Some [VFloat avg]
    /\ column "Rolling_Avg_Temp" df = Some [VFloat avg]
    /\ F64.eqb avg avg = true.
Proof.
  apply (machine_age_and_rolling_avg_temp Sample.scenario1 []).
  vm_compute. reflexivity.
Defined.

(** C3: Operator_Experience_Level is a function of Operator_Experience:
    Junior gives 1, Mid gives 2, Senior gives 3; any other value is not
    accepted: the lookup raises [KeyError] and no frame, hence no level, is
    produced. *)
Theorem operator_experience_level_mapping (i : Inputs) (tr : trace) :
  (operator_exp i = "Junior" \/ operator_exp i = "Mid"
   \/ operator_exp i = "Senior" ->
   exists df level,
     feature_engineering i tr = (Ok df, tr)
     /\ column "Operator_Experience" df = Some [VStr (operator_exp i)]
     /\ column "Operator_Experience_Level" df = Some [VInt level]
     /\ (operator_exp i = "Junior" -> level = 1)
     /\ (operator_exp i = "Mid" -> level = 2)
     /\ (operator_exp i = "Senior" -> level = 3))
  /\ (operator_exp i <> "Junior" -> operator_exp i <> "Mid" ->
      operator_exp i <> "Senior" ->
      operator_level (operator_exp i) = Raise (KeyError (operator_exp i))
      /\ feature_engineering i tr = (Raise (KeyError (operator_exp i)), tr)).
Proof.
  split.
  - intros H. rewrite feature_engineering_run, operator_level_spec.
    assert (exists level,
               Spec.experience_level (operator_exp i) = Some level
               /\ (operator_exp i = "Junior" -> level = 1)
               /\ (operator_exp i = "Mid" -> level = 2)
               /\ (operator_exp i = "Senior" -> level = 3))
      as (level & Hl & H1 & H2 & H3).
    { destruct H as [E|[E|E]]; rewrite E; eexists;
        (split; [reflexivity|]); repeat split; intros E';
        (reflexivity || discriminate E'). }
    rewrite Hl. exists (input_df i (temp i) (F64.mul (torque i) (vibration i))
                          (working_hours i) level), level.
    repeat split; assumption.
  - intros HJ HM HS.
    assert (operator_level (operator_exp i)
            = Raise (KeyError (operator_exp i))) as Hl.
    { rewrite operator_level_spec. unfold Spec.experience_level.
      apply String.eqb_neq in HJ, HM, HS. now rewrite HJ, HM, HS. }
    split; [exact Hl|]. rewrite feature_engineering_run, Hl. reflexivity.
Qed.

Lemma operator_experience_level_senior :
  exists df level,
    feature_engineering Sample.scenario1 [] = (Ok df, [])
    /\ column "Operator_Experience" df = Some [VStr "Senior"]
    /\ column "Operator_Experience_Level" df = Some [VInt level]
    /\ level = 3.
Proof.
  destruct (operator_experience_level_mapping Sample.scenario1 []) as [H _].
  destruct H as (df & level & H1 & H2 & H3 & _ & _ & H4).
  - right; right; reflexivity.
  - exists df, level. repeat split; try assumption. apply H4. reflexivity.
Defined.

(** C5: for every valid set of raw inputs the feature engineering step
    yields the Observation of section 3: the sixteen fields, under the names
    and in the order of the table, one row each, typed as the table says and
    valued by its formulas; and it is pure: the frame does not depend on the
    trace, and the trace is left as it was. *)
Theorem feature_engineering_builds_observation (i : Inputs) :
  Spec.valid_inputs i = true ->
  exists df,
    (forall tr, feature_engineering i tr = (Ok df, tr))
    /\ Spec.observation i = Some df
    /\ columns df = map fst Spec.fields
    /\ length df = 16%nat
    /\ Forall2 (fun col field =>
                  fst col = fst field
                  /\ exists v, snd col = [v]
                               /\ Spec.has_type (snd field) v = true)
               df Spec.fields.
Proof.
  intros H. destruct (valid_operator_level i H) as (level & Hl & Hs).
  clear H. destruct i. cbn [operator_exp] in Hl, Hs.
  eexists. split; [|split; [|split; [|split]]].
  - intros tr. rewrite feature_engineering_run. cbn [operator_exp].
    rewrite Hl. reflexivity.
  - cbv -[F64.mul Spec.experience_level]. rewrite Hs. reflexivity.
  - reflexivity.
  - reflexivity.
  - unfold input_df, Spec.fields.
    repeat (constructor; [split; [reflexivity|eexists; split; reflexivity]|]).
    constructor.
Qed.

Lemma feature_engineering_scenario1 :
  exists df,
    (forall tr, feature_engineering Sample.scenario1 tr = (Ok df, tr))
    /\ Spec.observation Sample.scenario1 = Some df
    /\ columns df = map fst Spec.fields
    /\ length df = 16%nat
    /\ Forall2 (fun col field =>
                  fst col = fst field
                  /\ exists v, snd col = [v]
                               /\ Spec.has_type (snd field) v = true)
               df Spec.fields.
Proof.
  apply (feature_engineering_builds_observation Sample.scenario1).
  vm_compute. reflexivity.
Defined.

(* ===================================================================== *)
(** * The presenter's two decisions *)
(* ===================================================================== *)

Lemma elements_differ :
  sufficient_life <> preventive_soon
  /\ sufficient_life <> critically_low
  /\ preventive_soon <> critically_low
  /\ healthy <> high_risk.
Proof. repeat split; discriminate. Qed.

(** An estimate that is not a number fails both comparisons and takes the
    last branch. *)
Lemma rul_advisory_nan : rul_advisory S754_nan = critically_low.
Proof. reflexivity. Qed.

(** C1: the advisory is chosen by the two thresholds exactly:
    above 1000 the "sufficient remaining life" notice and only there;
    above 300 and up to 1000 the "preventive maintenance" warning and only
    there; at or below 300 the "critically low" error, which among numbers
    is shown only there.  1000 itself is in the middle tier, the double next
    to 1000.01 in the upper one, and 300 itself in the critical one. *)
Theorem rul_advisory_tiers (rul : float) :
  (F64.gtb rul (F64.of_Z 1000) = true <-> rul_advisory rul = sufficient_life)
  /\ (F64.gtb rul (F64.of_Z 300) = true /\ F64.leb rul (F64.of_Z 1000) = true
      <-> rul_advisory rul = preventive_soon)
  /\ (F64.leb rul (F64.of_Z 300) = true -> rul_advisory rul = critically_low)
  /\ (rul_advisory rul = critically_low -> F64.is_nan rul = false ->
      F64.leb rul (F64.of_Z 300) = true)
  /\ rul_advisory (F64.of_Z 1000) = preventive_soon
  /\ rul_advisory Sample.just_above_1000 = sufficient_life
  /\ rul_advisory (F64.of_Z 300) = critically_low.
Proof.
  assert (F64.ltb (F64.of_Z 300) (F64.of_Z 1000) = true) as H31 by reflexivity.
  unfold rul_advisory.
  destruct (F64.gtb rul (F64.of_Z 1000)) eqn:G1;
    [|destruct (F64.gtb rul (F64.of_Z 300)) eqn:G3].
  - (* above 1000 *)
    split; [split; reflexivity|]. split; [|split; [|split]].
    + split; [|discriminate].
      intros [_ L]. apply F64Facts.leb_not_gtb in L. congruence.
    + intros L.
      pose proof (F64Facts.leb_ltb_trans _ _ _ L H31) as L1.
      apply F64Facts.ltb_leb, F64Facts.leb_not_gtb in L1. congruence.
    + discriminate.
    + repeat split.
  - (* above 300, not above 1000 *)
    split; [split; discriminate|]. split; [|split; [|split]].
    + split; [intros _; reflexivity|]. intros _. split; [reflexivity|].
      apply F64Facts.not_gtb_leb; trivial.
      eapply F64Facts.gtb_not_nan; eassumption.
    + intros L. apply F64Facts.leb_not_gtb in L. congruence.
    + discriminate.
    + repeat split.
  - (* not above 300 *)
    split; [split; discriminate|]. split; [|split; [|split]].
    + split; [intros [? _]|]; discriminate.
    + reflexivity.
    + intros _ N. apply F64Facts.not_gtb_leb; trivial.
    + repeat split.
Qed.

Lemma rul_advisory_tiers_at_500 :
  rul_advisory (F64.of_Z 500) = preventive_soon.
Proof.
  destruct (rul_advisory_tiers (F64.of_Z 500)) as (_ & [H _] & _).
  apply H. split; reflexivity.
Defined.



(* ===================================================================== *)
(** * Inference *)
(* ===================================================================== *)

(** The frame of scenario 1, as the feature engineering step builds it. *)
Lemma scenario1_frame :
  feature_engineering Sample.scenario1 []
  = (Ok (input_df Sample.scenario1 (F64.of_Z 50) (F64.of_Z 200) 1000 3), []).
Proof. vm_compute. reflexivity. Qed.




(* ===================================================================== *)
(** * A whole run of the script *)
(* ===================================================================== *)

(** Once the three artifacts are loaded, the page head, the sidebar and the
    tab bar are shown, and the script reaches the [if predict_button:]. *)
Lemma run_loaded (env : Env) (model : Classifier) (rul_model : Regressor)
    (pre : Preprocessor) :
  load_classifier (store env) "best_model.pkl" = Ok model ->
  load_regressor (store env) "rul_model.pkl" = Ok rul_model ->
  load_preprocessor (store env) "preprocessor.pkl" = Ok pre ->
  run env
  = ((if predict_button (ui env)
      then prediction_cycle (shap env) pre model rul_model (ui env)
      else render Main idle_hint) ;;
     render Main (st_markdown "---") ;;
     render Main (st_write "Industrial Predictive Maintenance powered by Machine Learning."))
      (loads ++ page_head ++ sidebar_events ++ tabs_event).
Proof.
  intros Hm Hr Hp. unfold run, app.
  erewrite bind_ok by (rewrite joblib_load_run, Hm; reflexivity).
  erewrite bind_ok by (rewrite joblib_load_run, Hr; reflexivity).
  erewrite bind_ok by (rewrite joblib_load_run, Hp; reflexivity).
  do 3 erewrite bind_ok by apply render_run.
  erewrite bind_ok by apply sidebar_run.
  erewrite bind_ok by apply render_run.
  reflexivity.
Qed.

Lemma feature_engineering_any_trace (i : Inputs) (df : DataFrame)
    (tr : trace) :
  feature_engineering i [] = (Ok df, []) ->
  feature_engineering i tr = (Ok df, tr).
Proof.
  rewrite !feature_engineering_run.
  destruct (operator_level (operator_exp i)); intros H; inversion H.
  reflexivity.
Qed.

Lemma infer_transform_raises (pre : Preprocessor) (model : Classifier)
    (rul_model : Regressor) (df : DataFrame) (e : exn) :
  transform pre df = Raise e -> infer pre model rul_model df = Raise e.
Proof. intros H. unfold infer. rewrite H. reflexivity. Qed.

(** When the transform raises, the run stops with that very exception,
    uncaught: nothing is rendered in any tab, the footer is not reached, and
    no fallback takes the place of the results. *)
Lemma transform_failure_aborts_the_cycle (env : Env) (model : Classifier)
    (rul_model : Regressor) (pre : Preprocessor) (df : DataFrame) (e : exn) :
  load_classifier (store env) "best_model.pkl" = Ok model ->
  load_regressor (store env) "rul_model.pkl" = Ok rul_model ->
  load_preprocessor (store env) "preprocessor.pkl" = Ok pre ->
  predict_button (ui env) = true ->
  feature_engineering (ui env) [] = (Ok df, []) ->
  transform pre df = Raise e ->
  infer pre model rul_model df = Raise e
  /\ run env = (Raise e, loads ++ page_head ++ sidebar_events ++ tabs_event)
  /\ forallb (fun ev => negb (shows_result ev)) (snd (run env)) = true.
Proof.
  intros Hm Hr Hp Hb Hdf He.
  pose proof (infer_transform_raises pre model rul_model df e He) as Hi.
  assert (run env
          = (Raise e, loads ++ page_head ++ sidebar_events ++ tabs_event))
    as Hrun.
  { rewrite (run_loaded env model rul_model pre Hm Hr Hp), Hb.
    apply bind_raise. unfold prediction_cycle.
    erewrite bind_ok by (apply feature_engineering_any_trace, Hdf).
    apply bind_raise. rewrite Hi. reflexivity. }
  split; [exact Hi|]. split; [exact Hrun|].
  rewrite Hrun. reflexivity.
Qed.

Lemma same_columns_eq (xs ys : list string) :
  same_columns xs ys = true <-> xs = ys.
Proof.
  revert ys. induction xs as [|x xs IH]; intros [|y ys]; simpl;
    try (split; (reflexivity || discriminate)).
  rewrite andb_true_iff, String.eqb_eq, IH. split.
  - intros [-> ->]. reflexivity.
  - intros H. injection H as -> ->. split; reflexivity.
Qed.

Lemma frame_columns (i : Inputs) (df : DataFrame) :
  feature_engineering i [] = (Ok df, []) ->
  columns df = map fst Spec.fields.
Proof.
  rewrite feature_engineering_run.
  destruct (operator_level (operator_exp i)); [discriminate|].
  intros H. injection H as <-. reflexivity.
Qed.

(** C7: when the preprocessor's expected columns do not match the
    Observation's fields (a derived field it requires is missing, say), its
    transform fails with the schema error, the inference fails with it, and
    the run stops with that very exception, uncaught: nothing is rendered in
    any tab, the footer is not reached, and no fallback takes the place of
    the results. *)
Theorem schema_mismatch_aborts_the_cycle (env : Env) (model : Classifier)
    (rul_model : Regressor) (expected : list string)
    (encode : DataFrame -> result matrix) (names : result (list string))
    (df : DataFrame) :
  load_classifier (store env) "best_model.pkl" = Ok model ->
  load_regressor (store env) "rul_model.pkl" = Ok rul_model ->
  load_preprocessor (store env) "preprocessor.pkl"
  = Ok (fitted_preprocessor expected encode names) ->
  predict_button (ui env) = true ->
  feature_engineering (ui env) [] = (Ok df, []) ->
  expected <> map fst Spec.fields ->
  columns df = map fst Spec.fields
  /\ transform (fitted_preprocessor expected encode names) df
     = Raise schema_error
  /\ infer (fitted_preprocessor expected encode names) model rul_model df
     = Raise schema_error
  /\ run env
     = (Raise schema_error,
        loads ++ page_head ++ sidebar_events ++ tabs_event)
  /\ forallb (fun ev => negb (shows_result ev)) (snd (run env)) = true.
Proof.
  intros Hm Hr Hp Hb Hdf Hne.
  pose proof (frame_columns _ _ Hdf) as Hcols.
  assert (transform (fitted_preprocessor expected encode names) df
          = Raise schema_error) as Ht.
  { cbn [transform fitted_preprocessor].
    destruct (same_columns expected (columns df)) eqn:E; [|reflexivity].
    apply same_columns_eq in E. congruence. }
  split; [exact Hcols|]. split; [exact Ht|].
  exact (transform_failure_aborts_the_cycle env model rul_model _ df _
           Hm Hr Hp Hb Hdf Ht).
Qed.

Lemma missing_field_aborts_the_cycle :
  columns (input_df Sample.scenario1 (F64.of_Z 50) (F64.of_Z 200) 1000 3)
  = map fst Spec.fields
  /\ transform Schema.with_missing_field
       (input_df Sample.scenario1 (F64.of_Z 50) (F64.of_Z 200) 1000 3)
     = Raise schema_error
  /\ infer Schema.with_missing_field Sample.healthy_model
           (Sample.regressor (F64.of_Z 1500))
           (input_df Sample.scenario1 (F64.of_Z 50) (F64.of_Z 200) 1000 3)
     = Raise schema_error
  /\ run Schema.env_missing_field
     = (Raise schema_error,
        loads ++ page_head ++ sidebar_events ++ tabs_event)
  /\ forallb (fun ev => negb (shows_result ev))
             (snd (run Schema.env_missing_field)) = true.
Proof.
  apply (schema_mismatch_aborts_the_cycle Schema.env_missing_field
           Sample.healthy_model (Sample.regressor (F64.of_Z 1500))
           ("Humidity_Index" :: map fst Spec.fields) Schema.encode
           (Ok ["f0"; "f1"]));
    try reflexivity.
  discriminate.
Defined.

(** C6: when the attribution computation raises an [Exception] (a model
    that is not tree based, for one), the run still ends normally: the
    overview tab holds the failure probability, the remaining-life estimate,
    the health status and the advisory; the explanation tab holds its heading
    and the plain-text fallback; the summary tab and the footer follow. *)
Theorem explainer_failure_is_not_fatal (env : Env) (model : Classifier)
    (rul_model : Regressor) (pre : Preprocessor) (df : DataFrame)
    (r : Prediction) (percent : Z) (e : exn) :
  load_classifier (store env) "best_model.pkl" = Ok model ->
  load_regressor (store env) "rul_model.pkl" = Ok rul_model ->
  load_preprocessor (store env) "preprocessor.pkl" = Ok pre ->
  predict_button (ui env) = true ->
  feature_engineering (ui env) [] = (Ok df, []) ->
  infer pre model rul_model df = Ok r ->
  py_int (F64.mul (probability r) (F64.of_Z 100)) = Ok percent ->
  0 <= percent <= 100 ->
  explain (shap env) pre model (X_input r) = Raise e ->
  is_Exception e = true ->
  run env
  = (Ok tt,
     loads ++ page_head ++ sidebar_events ++ tabs_event
     ++ overview_events r percent
     ++ explanation_fallback_events
     ++ model_info_events
     ++ page_foot).
Proof.
  intros Hm Hr Hp Hb Hdf Hi Hpc Hrange He Hc.
  rewrite (run_loaded env model rul_model pre Hm Hr Hp), Hb.
  erewrite bind_ok.
  2:{ unfold prediction_cycle.
      erewrite bind_ok by (apply feature_engineering_any_trace, Hdf).
      erewrite bind_ok by (rewrite Hi; reflexivity).
      erewrite bind_ok by (apply overview_run; eassumption).
      erewrite bind_ok by (eapply explainability_fallback; eassumption).
      apply model_info_run. }
  erewrite bind_ok by apply render_run.
  rewrite render_run. unfold page_foot.
  repeat rewrite <- app_assoc. reflexivity.
Qed.

Lemma non_tree_model_still_renders :
  run Sample.env_no_tree
  = (Ok tt,
     loads ++ page_head ++ sidebar_events ++ tabs_event
     ++ overview_events
          {| X_input := [[F64.of_Z 1; F64.of_Z 2]];
             probability := Sample.dyadic 1 (-2);
             predicted_class := VInt 0;
             rul_prediction := F64.of_Z 1500 |} 25
     ++ explanation_fallback_events
     ++ model_info_events
     ++ page_foot).
Proof.
  apply (explainer_failure_is_not_fatal Sample.env_no_tree
           Sample.healthy_model (Sample.regressor (F64.of_Z 1500))
           Sample.preprocessor
           (input_df Sample.scenario1 (F64.of_Z 50) (F64.of_Z 200) 1000 3)
           _ 25 (Raised "InvalidModelError"));
    try reflexivity.
  split; discriminate.
Defined.

(** ** Which events a block can append *)

Section Emits.
Variable P : event -> bool.

Lemma emits_ret {A} (a : A) : emits P (mret a).
Proof. intros tr. exists []. now rewrite app_nil_r. Qed.

Lemma emits_call {A} (r : result A) : emits P (call r).
Proof. intros tr. exists []. now rewrite app_nil_r. Qed.

Lemma emits_throw {A} (e : exn) : emits P (mthrow e : M A).
Proof. intros tr. exists []. now rewrite app_nil_r. Qed.

Lemma emits_emit (ev : event) : P ev = true -> emits P (emit ev).
Proof. intros H tr. exists [ev]. simpl. now rewrite H. Qed.

Lemma emits_bind {A B} (m : M A) (k : A -> M B) :
  emits P m -> (forall a, emits P (k a)) -> emits P (m ≫= k).
Proof.
  intros Hm Hk tr. destruct (Hm tr) as (evs & E & F).
  unfold mbind, M_bind. destruct (m tr) as [[e|a] tr']; simpl in E; subst tr'.
  - exists evs. split; trivial.
  - destruct (Hk a (tr ++ evs)) as (evs' & E' & F').
    exists (evs ++ evs'). rewrite E', app_assoc, forallb_app, F, F'.
    split; reflexivity.
Qed.

Lemma emits_try_except {A} (body handler : M A) :
  emits P body -> emits P handler -> emits P (try_except body handler).
Proof.
  intros Hb Hh tr. destruct (Hb tr) as (evs & E & F).
  unfold try_except. destruct (body tr) as [[e|a] tr']; simpl in E; subst tr'.
  - destruct (is_Exception e).
    + destruct (Hh (tr ++ evs)) as (evs' & E' & F').
      exists (evs ++ evs'). rewrite E', app_assoc, forallb_app, F, F'.
      split; reflexivity.
    + exists evs. split; trivial.
  - exists evs. split; trivial.
Qed.

Lemma emits_if {A} (b : bool) (m1 m2 : M A) :
  emits P m1 -> emits P m2 -> emits P (if b then m1 else m2).
Proof. destruct b; trivial. Qed.

End Emits.

Ltac emits_steps :=
  repeat first
    [ apply emits_bind; [|intros]
    | apply emits_if
    | apply emits_try_except
    | apply emits_ret
    | apply emits_call
    | apply emits_throw
    | apply emits_emit; reflexivity ].

Lemma prediction_cycle_loads_nothing (sh : Shap) (pre : Preprocessor)
    (model : Classifier) (rul_model : Regressor) (i : Inputs) :
  emits not_load (prediction_cycle sh pre model rul_model i).
Proof.
  unfold prediction_cycle, feature_engineering, overview, explainability,
    model_info, progress, render.
  emits_steps.
Qed.

(** Every execution of the script loads its artifacts first. *)
Lemma artifacts_load_first (env : Env) : loads_first env.
Proof.
  unfold loads_first.
  destruct (load_classifier (store env) "best_model.pkl") as [e|model] eqn:Hm.
  { unfold run, app. apply bind_raise. rewrite joblib_load_run, Hm.
    reflexivity. }
  destruct (load_regressor (store env) "rul_model.pkl") as [e|rul] eqn:Hr.
  { unfold run, app.
    erewrite bind_ok by (rewrite joblib_load_run, Hm; reflexivity).
    apply bind_raise. rewrite joblib_load_run, Hr. reflexivity. }
  destruct (load_preprocessor (store env) "preprocessor.pkl") as [e|pre] eqn:Hp.
  { unfold run, app.
    erewrite bind_ok by (rewrite joblib_load_run, Hm; reflexivity).
    erewrite bind_ok by (rewrite joblib_load_run, Hr; reflexivity).
    apply bind_raise. rewrite joblib_load_run, Hp. reflexivity. }
  rewrite (run_loaded env model rul pre Hm Hr Hp).
  match goal with
  | |- context [snd (?m ?tr)] =>
      assert (emits not_load m) as Hrest
  end.
  { apply emits_bind; [|intros; unfold render; emits_steps].
    apply emits_if; [apply prediction_cycle_loads_nothing|].
    unfold render. emits_steps. }
  destruct (Hrest (loads ++ page_head ++ sidebar_events ++ tabs_event))
    as (evs & E & F).
  exists (page_head ++ sidebar_events ++ tabs_event ++ evs).
  rewrite E, !forallb_app, F. repeat rewrite <- app_assoc.
  split; reflexivity.
Qed.

Lemma filter_is_load_nil (tr : trace) :
  forallb not_load tr = true -> List.filter is_load tr = [].
Proof.
  induction tr as [|ev tr IH]; simpl; trivial.
  intros H. apply andb_true_iff in H as [Hev Htr].
  unfold not_load in Hev. apply negb_true_iff in Hev. rewrite Hev.
  now apply IH.
Qed.

Lemma loads_of_an_execution (env : Env) :
  loads_succeed env = true ->
  List.filter is_load (snd (run env)) = loads.
Proof.
  intros H. pose proof (artifacts_load_first env) as Hl.
  unfold loads_first in Hl. unfold loads_succeed in H.
  destruct (load_classifier (store env) "best_model.pkl"); [discriminate|].
  destruct (load_regressor (store env) "rul_model.pkl"); [discriminate|].
  destruct (load_preprocessor (store env) "preprocessor.pkl");
    [discriminate|].
  destruct Hl as (rest & -> & Hrest).
  rewrite List.filter_app, (filter_is_load_nil rest Hrest). reflexivity.
Qed.

(** C9, as stated, fails: loading is not a one-time step of the process.
    In a session that opens the page and then presses the predict button,
    the first execution loads the three artifacts and reads the thirteen
    widgets; the second execution, the one that makes the prediction, loads
    the three artifacts again, after input was accepted: six loads in all. *)
Lemma artifacts_are_loaded_again_on_every_interaction :
  opens_idle [Sample.env_idle; Sample.env_tree] = true
  /\ (exists shown rest,
        session_trace [Sample.env_idle; Sample.env_tree]
        = loads ++ page_head ++ sidebar_events ++ shown ++ loads ++ rest)
  /\ length (List.filter is_load
               (session_trace [Sample.env_idle; Sample.env_tree]))
     = 6%nat
  /\ existsb shows_result (snd (run Sample.env_idle)) = false
  /\ existsb shows_result (snd (run Sample.env_tree)) = true.
Proof.
  split; [reflexivity|]. split.
  - exists (tabs_event ++ [Render Main idle_hint] ++ page_foot),
           (drop 3 (snd (run Sample.env_tree))).
    vm_compute. reflexivity.
  - repeat split; vm_compute; reflexivity.
Qed.

(** C9, amended: in every execution of the script, at the opening of the
    page and at each interaction, the three artifacts are loaded first, once
    each and in order, before any widget of that execution is read; an
    artifact that is missing or unreadable ends that execution there, with
    no input read and no prediction made.  Over a session whose loads all
    succeed the process therefore loads three artifacts per execution. *)
Theorem artifacts_load_at_the_start_of_every_execution (envs : list Env) :
  Forall loads_first envs
  /\ (forallb loads_succeed envs = true ->
      length (List.filter is_load (session_trace envs))
      = (3 * length envs)%nat).
Proof.
  split.
  - apply Forall_forall. intros env _. apply artifacts_load_first.
  - unfold session_trace, session.
    induction envs as [|env envs IH]; [reflexivity|].
    cbn [forallb map concat]. intros H.
    apply andb_true_iff in H as [Henv Henvs].
    rewrite List.filter_app, length_app, (loads_of_an_execution env Henv),
      (IH Henvs).
    unfold loads. cbn [length]. lia.
Qed.

Lemma two_executions_load_six_times :
  run Sample.env_missing_artifact
  = (Raise (Raised "FileNotFoundError"),
     [Load "best_model.pkl"; Load "rul_model.pkl"])
  /\ length (List.filter is_load
               (session_trace [Sample.env_idle; Sample.env_tree]))
     = (3 * 2)%nat.
Proof.
  split.
  - destruct (artifacts_load_at_the_start_of_every_execution
                [Sample.env_idle; Sample.env_missing_artifact]) as [H _].
    inversion H as [|? ? _ H']. inversion H' as [|? ? Hlast _].
    exact Hlast.
  - destruct (artifacts_load_at_the_start_of_every_execution
                [Sample.env_idle; Sample.env_tree]) as [_ H].
    apply H. reflexivity.
Defined.

(* ===================================================================== *)
(** * Further paths of a run *)
(* ===================================================================== *)

(** X2: an exception of the attribution step that is no [Exception] (a
    keyboard interrupt, for one) is not caught by the [except Exception] of
    line 163: the explanation tab shows its heading only and the exception
    leaves the block. *)
Theorem base_exception_leaves_the_explanation_tab (sh : Shap)
    (pre : Preprocessor) (model : Classifier) (X : matrix) (name : string)
    (tr : trace) :
  explain sh pre model X = Raise (BaseRaised name) ->
  explainability sh pre model X tr
  = (Raise (BaseRaised name),
     tr ++ [Render Tab2 (st_subheader "Prediction Explanation (SHAP)")]).
Proof.
  intros He. unfold explainability.
  erewrite bind_ok by apply render_run.
  unfold try_except, call. cbv [mbind M_bind]. rewrite He. reflexivity.
Qed.

Lemma keyboard_interrupt_leaves_the_explanation_tab :
  explainability Sample.shap_interrupted Sample.preprocessor
                 Sample.healthy_model [[F64.of_Z 1; F64.of_Z 2]] []
  = (Raise (BaseRaised "KeyboardInterrupt"),
     [Render Tab2 (st_subheader "Prediction Explanation (SHAP)")]).
Proof.
  apply (base_exception_leaves_the_explanation_tab Sample.shap_interrupted
           Sample.preprocessor Sample.healthy_model
           [[F64.of_Z 1; F64.of_Z 2]] "KeyboardInterrupt" []).
  reflexivity.
Defined.

(** X3: a cycle in which every step answers shows everything: when the
    frame is built, the models answer, the progress value is within 0..100
    and the attribution step returns its figure, the run ends normally and
    its page is the complete overview, the explanation heading with the
    waterfall plot (no fallback text), the summary tab and the footer. *)
Theorem successful_cycle_shows_everything (env : Env) (model : Classifier)
    (rul_model : Regressor) (pre : Preprocessor) (df : DataFrame)
    (r : Prediction) (percent : Z) (fig : Figure) :
  load_classifier (store env) "best_model.pkl" = Ok model ->
  load_regressor (store env) "rul_model.pkl" = Ok rul_model ->
  load_preprocessor (store env) "preprocessor.pkl" = Ok pre ->
  predict_button (ui env) = true ->
  feature_engineering (ui env) [] = (Ok df, []) ->
  infer pre model rul_model df = Ok r ->
  py_int (F64.mul (probability r) (F64.of_Z 100)) = Ok percent ->
  0 <= percent <= 100 ->
  explain (shap env) pre model (X_input r) = Ok fig ->
  run env
  = (Ok tt,
     loads ++ page_head ++ sidebar_events ++ tabs_event
     ++ overview_events r percent
     ++ [ Render Tab2 (st_subheader "Prediction Explanation (SHAP)");
          Render Tab2 (st_pyplot fig) ]
     ++ model_info_events
     ++ page_foot).
Proof.
  intros Hm Hr Hp Hb Hdf Hi Hpc Hrange He.
  rewrite (run_loaded env model rul_model pre Hm Hr Hp), Hb.
  erewrite bind_ok.
  2:{ unfold prediction_cycle.
      erewrite bind_ok by (apply feature_engineering_any_trace, Hdf).
      erewrite bind_ok by (rewrite Hi; reflexivity).
      erewrite bind_ok by (apply overview_run; eassumption).
      erewrite bind_ok by (eapply explainability_plot; eassumption).
      apply model_info_run. }
  erewrite bind_ok by apply render_run.
  rewrite render_run. unfold page_foot.
  repeat rewrite <- app_assoc. reflexivity.
Qed.

Lemma scenario1_end_to_end :
  run Sample.env_tree
  = (Ok tt,
     loads ++ page_head ++ sidebar_events ++ tabs_event
     ++ overview_events (Cases.prediction_with Cases.quarter) 25
     ++ [ Render Tab2 (st_subheader "Prediction Explanation (SHAP)");
          Render Tab2
            (st_pyplot
               (Waterfall {| values := [F64.of_Z 0; F64.of_Z 0];
                             base_values := F64.of_Z 0;
                             data := [F64.of_Z 1; F64.of_Z 2];
                             feature_names := ["f0"; "f1"] |})) ]
     ++ model_info_events
     ++ page_foot).
Proof.
  apply (successful_cycle_shows_everything Sample.env_tree
           Sample.healthy_model (Sample.regressor (F64.of_Z 1500))
           Sample.preprocessor
           (input_df Sample.scenario1 (F64.of_Z 50) (F64.of_Z 200) 1000 3));
    try reflexivity.
  split; discriminate.
Defined.

(** X4: until the predict button is pressed the script builds no frame and
    calls no model: after the page head, the sidebar and the tab bar it shows
    the hint of line 180 and the footer, and ends normally. *)
Theorem no_prediction_before_the_button (env : Env) (model : Classifier)
    (rul_model : Regressor) (pre : Preprocessor) :
  load_classifier (store env) "best_model.pkl" = Ok model ->
  load_regressor (store env) "rul_model.pkl" = Ok rul_model ->
  load_preprocessor (store env) "preprocessor.pkl" = Ok pre ->
  predict_button (ui env) = false ->
  run env
  = (Ok tt,
     loads ++ page_head ++ sidebar_events ++ tabs_event
     ++ [Render Main idle_hint] ++ page_foot).
Proof.
  intros Hm Hr Hp Hb.
  rewrite (run_loaded env model rul_model pre Hm Hr Hp), Hb.
  do 2 erewrite bind_ok by apply render_run.
  rewrite render_run. unfold page_foot.
  repeat rewrite <- app_assoc. reflexivity.
Qed.

Lemma idle_page :
  run Sample.env_idle
  = (Ok tt,
     loads ++ page_head ++ sidebar_events ++ tabs_event
     ++ [Render Main idle_hint] ++ page_foot).
Proof.
  apply (no_prediction_before_the_button Sample.env_idle
           Sample.healthy_model (Sample.regressor (F64.of_Z 1500))
           Sample.preprocessor);
    reflexivity.
Defined.

(* ===================================================================== *)
(** * When inference fails *)
(* ===================================================================== *)

(** X5: whatever step of the inference raises (the transform, the
    classifier, the regressor, or an index out of range), the run ends with
    that exception before anything is rendered in a tab: the page holds the
    head, the sidebar and the tab bar only. *)
Theorem inference_failure_renders_nothing (env : Env) (model : Classifier)
    (rul_model : Regressor) (pre : Preprocessor) (df : DataFrame) (e : exn) :
  load_classifier (store env) "best_model.pkl" = Ok model ->
  load_regressor (store env) "rul_model.pkl" = Ok rul_model ->
  load_preprocessor (store env) "preprocessor.pkl" = Ok pre ->
  predict_button (ui env) = true ->
  feature_engineering (ui env) [] = (Ok df, []) ->
  infer pre model rul_model df = Raise e ->
  run env = (Raise e, loads ++ page_head ++ sidebar_events ++ tabs_event).
Proof.
  intros Hm Hr Hp Hb Hdf Hi.
  rewrite (run_loaded env model rul_model pre Hm Hr Hp), Hb.
  apply bind_raise. unfold prediction_cycle.
  erewrite bind_ok by (apply feature_engineering_any_trace, Hdf).
  apply bind_raise. rewrite Hi. reflexivity.
Qed.

Lemma regressor_failure_renders_nothing :
  run Cases.env_regressor_down
  = (Raise (Raised "NotFittedError"),
     loads ++ page_head ++ sidebar_events ++ tabs_event).
Proof.
  apply (inference_failure_renders_nothing Cases.env_regressor_down
           Sample.healthy_model Cases.regressor_down Sample.preprocessor
           (input_df Sample.scenario1 (F64.of_Z 50) (F64.of_Z 200) 1000 3));
    reflexivity.
Defined.

(** X6: the inference returns a prediction exactly when the preprocessor,
    the classifier (both methods) and the regressor all answer and the
    answers have a first row, a second probability column, a first label and
    a first estimate; the prediction then holds exactly these entries. *)
Theorem infer_succeeds_exactly_when_all_answer (pre : Preprocessor)
    (model : Classifier) (rul_model : Regressor) (df : DataFrame)
    (r : Prediction) :
  infer pre model rul_model df = Ok r
  <-> exists proba row labels ruls,
        transform pre df = Ok (X_input r)
        /\ predict_proba model (X_input r) = Ok proba
        /\ proba !! 0%nat = Some row
        /\ row !! 1%nat = Some (probability r)
        /\ predict model (X_input r) = Ok labels
        /\ labels !! 0%nat = Some (predicted_class r)
        /\ rul_predict rul_model (X_input r) = Ok ruls
        /\ ruls !! 0%nat = Some (rul_prediction r).
Proof.
  unfold infer, getitem. cbv [mbind result_bind mret result_ret Ok Raise].
  split.
  - destruct (transform pre df) as [|X] eqn:HX; [discriminate|].
    destruct (predict_proba model X) as [|proba] eqn:Hp; [discriminate|].
    destruct (proba !! 0%nat) as [row|] eqn:Hrow; [|discriminate].
    destruct (row !! 1%nat) as [p|] eqn:Hq; [|discriminate].
    destruct (predict model X) as [|labels] eqn:Hl; [discriminate|].
    destruct (labels !! 0%nat) as [c|] eqn:Hc; [|discriminate].
    destruct (rul_predict rul_model X) as [|ruls] eqn:Hr; [discriminate|].
    destruct (ruls !! 0%nat) as [rul|] eqn:Hrul; [|discriminate].
    intros H. injection H as <-. cbn.
    exists proba, row, labels, ruls. repeat split; assumption.
  - intros (proba & row & labels & ruls & HX & Hp & Hrow & Hq & Hl & Hc
            & Hr & Hrul).
    rewrite HX, Hp, Hrow, Hq, Hl, Hc, Hr, Hrul. destruct r. reflexivity.
Qed.

(** X7: when the classifier answers no row, or a first row with fewer than
    two probability columns (a model fitted on one class), line 104 raises
    [IndexError]; neither [predict] nor the regressor changes that. *)
Theorem infer_needs_two_probability_columns (pre : Preprocessor)
    (model : Classifier) (rul_model : Regressor) (df : DataFrame)
    (X : matrix) (proba : list (list float)) :
  transform pre df = Ok X ->
  predict_proba model X = Ok proba ->
  (proba = []
   \/ exists row, proba !! 0%nat = Some row /\ (length row < 2)%nat) ->
  infer pre model rul_model df = Raise IndexError.
Proof.
  intros HX Hp Hshape. unfold infer, getitem.
  cbv [mbind result_bind]. rewrite HX. unfold Ok at 1. rewrite Hp.
  unfold Ok at 1.
  destruct Hshape as [->|(row & Hrow & Hlen)].
  - reflexivity.
  - rewrite Hrow. unfold Ok at 1.
    rewrite (lookup_ge_None_2 row 1) by lia. reflexivity.
Qed.

Lemma one_class_model_raises_index_error :
  infer Sample.preprocessor Cases.one_class_model
        (Sample.regressor (F64.of_Z 1500))
        (input_df Sample.scenario1 (F64.of_Z 50) (F64.of_Z 200) 1000 3)
  = Raise IndexError.
Proof.
  apply (infer_needs_two_probability_columns Sample.preprocessor
           Cases.one_class_model (Sample.regressor (F64.of_Z 1500)) _
           [[F64.of_Z 1; F64.of_Z 2]] [[F64.of_Z 1]]);
    try reflexivity.
  right. exists [F64.of_Z 1]. split; [reflexivity|]. simpl. lia.
Defined.

(* ===================================================================== *)
(** * The overview tab and the progress bar *)
(* ===================================================================== *)

Lemma overview_raises (r : Prediction) (e : exn) (tr : trace) :
  py_int (F64.mul (probability r) (F64.of_Z 100)) = Raise e ->
  overview r tr = (Raise e, tr ++ overview_head r).
Proof.
  intros H. unfold overview, overview_head.
  cbv [mbind M_bind render emit call]. rewrite H. unfold Ok, Raise.
  repeat rewrite <- app_assoc. reflexivity.
Qed.

(** X8: a failure probability that is NaN or infinite stops the overview at
    line 118: [int(...)] raises [ValueError], respectively [OverflowError],
    after the probability metric has been shown and before the progress bar,
    the remaining-life metric, the health status and the advisory. *)
Theorem overview_of_a_probability_that_is_no_number (r : Prediction)
    (tr : trace) :
  (F64.is_nan (probability r) = true ->
   overview r tr = (Raise ValueError, tr ++ overview_head r))
  /\ (forall s : bool, probability r = S754_infinity s ->
      overview r tr = (Raise OverflowError, tr ++ overview_head r)).
Proof.
  split.
  - intros H. apply overview_raises.
    destruct (probability r); try discriminate. reflexivity.
  - intros s H. apply overview_raises. rewrite H. reflexivity.
Qed.

Lemma overview_of_a_nan_probability :
  overview (Cases.prediction_with S754_nan) []
  = (Raise ValueError, overview_head (Cases.prediction_with S754_nan)).
Proof.
  destruct (overview_of_a_probability_that_is_no_number
              (Cases.prediction_with S754_nan) []) as [H _].
  apply H. reflexivity.
Defined.

(** X9: a progress value outside 0..100 is refused by [st.progress]: the
    overview stops there with [StreamlitAPIException], the probability
    metric already shown and nothing after it. *)
Theorem overview_refuses_a_percent_out_of_range (r : Prediction)
    (percent : Z) (tr : trace) :
  py_int (F64.mul (probability r) (F64.of_Z 100)) = Ok percent ->
  percent < 0 \/ 100 < percent ->
  overview r tr = (Raise StreamlitAPIException, tr ++ overview_head r).
Proof.
  intros Hp Hr. unfold overview, overview_head, progress.
  assert ((0 <=? percent) && (percent <=? 100) = false) as Hb.
  { apply andb_false_iff. destruct Hr; [left|right]; apply Z.leb_gt; lia. }
  cbv [mbind M_bind render emit call]. rewrite Hp. unfold Ok.
  rewrite Hb. repeat rewrite <- app_assoc. reflexivity.
Qed.

Lemma overview_of_probability_one_and_a_half :
  overview (Cases.prediction_with Cases.one_and_a_half) []
  = (Raise StreamlitAPIException,
     overview_head (Cases.prediction_with Cases.one_and_a_half)).
Proof.
  apply (overview_refuses_a_percent_out_of_range
           (Cases.prediction_with Cases.one_and_a_half) 150
           []).
  - reflexivity.
  - right. reflexivity.
Defined.

(* ===================================================================== *)
(** * Rounded products of bounded doubles *)
(* ===================================================================== *)

Lemma digits2_pos_bounds (m : positive) :
  2 ^ (Zpos (digits2_pos m) - 1) <= Zpos m < 2 ^ Zpos (digits2_pos m).
Proof.
  induction m as [m IH|m IH|]; simpl digits2_pos.
  - rewrite Pos2Z.inj_succ.
    replace (Z.succ (Z.pos (digits2_pos m)) - 1) with (Z.succ (Zpos (digits2_pos m) - 1)) by lia.
    rewrite !Z.pow_succ_r by lia. lia.
  - rewrite Pos2Z.inj_succ.
    replace (Z.succ (Z.pos (digits2_pos m)) - 1) with (Z.succ (Zpos (digits2_pos m) - 1)) by lia.
    rewrite !Z.pow_succ_r by lia. lia.
  - simpl. lia.
Qed.

Lemma shr_1_div2 (mrs : shr_record) :
  0 <= shr_m mrs -> shr_m (shr_1 mrs) = shr_m mrs / 2.
Proof.
  destruct mrs as [m r s]. cbn [shr_m].
  destruct m as [|[p|p|]|p]; cbn [shr_1 shr_m]; intros H; try lia.
  - reflexivity.
  - apply Z.div_unique with 1; lia.
  - apply Z.div_unique with 0; lia.
  - reflexivity.
Qed.

Lemma iter_shr_1_div (n : positive) :
  forall mrs, 0 <= shr_m mrs ->
    shr_m (SpecFloat.iter_pos shr_1 n mrs) = shr_m mrs / 2 ^ Zpos n.
Proof.
  assert (forall k, 0 < 2 ^ Zpos k) as Hpos
    by (intros; apply Z.pow_pos_nonneg; lia).
  induction n as [n IH|n IH|]; simpl SpecFloat.iter_pos; intros mrs H.
  - rewrite IH, IH, shr_1_div2; trivial.
    + pose proof (Hpos n).
      rewrite !Z.div_div by lia. f_equal.
      replace (Z.pos n~1) with (1 + (Z.pos n + Z.pos n)) by lia.
      rewrite !Z.pow_add_r by lia. lia.
    + now apply F64Facts.shr_1_nonneg.
    + now apply F64Facts.iter_shr_1_nonneg, F64Facts.shr_1_nonneg.
  - rewrite IH, IH; trivial.
    + pose proof (Hpos n).
      rewrite !Z.div_div by lia. f_equal.
      replace (Z.pos n~0) with (Z.pos n + Z.pos n) by lia.
      rewrite !Z.pow_add_r by lia. lia.
    + now apply F64Facts.iter_shr_1_nonneg.
  - rewrite shr_1_div2; trivial.
Qed.

Lemma shr_fexp_spec (m e : Z) (l : location) :
  0 <= m ->
  snd (shr_fexp F64.prec F64.emax m e l)
  = Z.max e (fexp F64.prec F64.emax (Zdigits2 m + e))
  /\ shr_m (fst (shr_fexp F64.prec F64.emax m e l))
     = m / 2 ^ (snd (shr_fexp F64.prec F64.emax m e l) - e).
Proof.
  intros H. unfold shr_fexp, shr.
  set (t := fexp F64.prec F64.emax (Zdigits2 m + e)).
  assert (shr_m (shr_record_of_loc m l) = m) as Hm
    by (destruct l as [|[ | | ]]; reflexivity).
  destruct (t - e) as [|p|p] eqn:E; simpl.
  - rewrite Hm. replace (Z.max e t) with e by lia.
    rewrite Z.sub_diag. simpl. now rewrite Z.div_1_r.
  - split; [lia|]. rewrite iter_shr_1_div by lia. rewrite Hm.
    f_equal. f_equal. lia.
  - rewrite Hm. replace (Z.max e t) with e by lia.
    rewrite Z.sub_diag. simpl. now rewrite Z.div_1_r.
Qed.

Lemma round_nearest_even_bounds (m : Z) (l : location) :
  m <= round_nearest_even m l <= m + 1.
Proof.
  destruct l as [|[ | | ]]; simpl; try lia. destruct (Z.even m); lia.
Qed.

Lemma pow2_split (a b : Z) : 0 <= a -> 0 <= b -> 2 ^ (a + b) = 2 ^ a * 2 ^ b.
Proof. intros. now rewrite Z.pow_add_r. Qed.

Lemma Zdigits2_le (m k : Z) : 0 <= m -> 0 <= k -> m < 2 ^ k -> Zdigits2 m <= k.
Proof.
  intros Hm Hk H. destruct m as [|p|p]; simpl; try lia.
  pose proof (digits2_pos_bounds p) as [Hlo _].
  destruct (Z_le_gt_dec (Zpos (digits2_pos p)) k) as [|Hgt]; trivial.
  exfalso.
  assert (2 ^ k <= 2 ^ (Zpos (digits2_pos p) - 1))
    by (apply Z.pow_le_mono_r; lia).
  lia.
Qed.

(** Rounding a positive [m * 2^E] that is at most [K] gives zero or a finite
    non-negative double whose integer part is at most [K]. *)
Lemma round_bounded (m E K k : Z) :
  0 < m -> E < 0 -> 1 <= K < 2 ^ k -> 0 <= k <= 51 ->
  m <= K * 2 ^ (- E) ->
  exists n,
    py_int (binary_round_aux F64.prec F64.emax false m E loc_Exact) = Ok n
    /\ 0 <= n <= K
    /\ F64.is_finite (binary_round_aux F64.prec F64.emax false m E loc_Exact)
       = true
    /\ F64.leb (F64.of_Z 0)
               (binary_round_aux F64.prec F64.emax false m E loc_Exact) = true.
Proof.
  intros Hm HE HK Hk Hle. unfold binary_round_aux.
  destruct (shr_fexp_spec m E loc_Exact) as [He1 HM1]; [lia|].
  destruct (shr_fexp F64.prec F64.emax m E loc_Exact) as [mrs1 e1].
  cbn [fst snd] in He1, HM1.
  set (M1 := round_nearest_even (shr_m mrs1) (loc_of_shr_record mrs1)).
  pose proof (round_nearest_even_bounds (shr_m mrs1) (loc_of_shr_record mrs1))
    as HM1b. fold M1 in HM1b.
  (* the first exponent is negative *)
  assert (2 ^ (- E) > 0) as HpE by (apply Z.lt_gt, Z.pow_pos_nonneg; lia).
  assert (Zdigits2 m + E <= k) as Hd.
  { assert (Zdigits2 m <= k - E); [|lia].
    apply Zdigits2_le; try lia.
    rewrite <- Z.add_opp_r, pow2_split by lia. nia. }
  assert (E <= e1 < 0) as He1b.
  { rewrite He1. unfold fexp, emin, F64.prec, F64.emax. lia. }
  set (a := - e1). set (b := e1 - E).
  assert (2 ^ (- E) = 2 ^ a * 2 ^ b) as Hsplit
    by (rewrite <- pow2_split by (unfold a, b; lia); f_equal; unfold a, b; lia).
  assert (2 <= 2 ^ a) as HA.
  { change 2 with (2 ^ 1) at 1. apply Z.pow_le_mono_r; unfold a; lia. }
  assert (0 < 2 ^ b) as HB by (apply Z.pow_pos_nonneg; unfold b; lia).
  assert (0 <= shr_m mrs1 <= K * 2 ^ a) as HM1c.
  { rewrite HM1. fold b. split.
    - apply Z.div_pos; lia.
    - apply Z.div_le_upper_bound; trivial. rewrite Hsplit in Hle. nia. }
  destruct (shr_fexp_spec M1 e1 loc_Exact) as [He2 HM2]; [lia|].
  destruct (shr_fexp F64.prec F64.emax M1 e1 loc_Exact) as [mrs2 e2].
  cbn [fst snd] in He2, HM2.
  (* so is the second one *)
  assert (Zdigits2 M1 + e1 <= k + 1) as Hd2.
  { assert (Zdigits2 M1 <= k + 1 + a); [|unfold a in *; lia].
    apply Zdigits2_le; try lia.
    replace (k + 1 + a) with (1 + (k + a)) by lia.
    rewrite !pow2_split by lia. change (2 ^ 1) with 2. nia. }
  assert (e1 <= e2 < 0) as He2b.
  { rewrite He2. unfold fexp, emin, F64.prec, F64.emax. lia. }
  set (c := e2 - e1) in *.
  assert (0 < 2 ^ c) as HC by (apply Z.pow_pos_nonneg; unfold c; lia).
  assert (0 < 2 ^ (- e2)) as HD by (apply Z.pow_pos_nonneg; lia).
  assert (2 ^ a = 2 ^ (- e2) * 2 ^ c) as Hsplit2
    by (rewrite <- pow2_split by (unfold c; lia); f_equal; unfold a, c; lia).
  assert (0 <= shr_m mrs2 /\ shr_m mrs2 * 2 ^ c <= M1) as [HM2a HM2b].
  { rewrite HM2. split.
    - apply Z.div_pos; lia.
    - rewrite Z.mul_comm. apply Z.mul_div_le. lia. }
  destruct (shr_m mrs2) as [|mf|mf] eqn:Emf; try lia.
  - exists 0. repeat split; lia.
  - assert ((e2 <=? F64.emax - F64.prec) = true) as ->
      by (apply Z.leb_le; unfold F64.emax, F64.prec; lia).
    cbn [py_int F64.is_finite]. unfold F64.trunc_finite.
    destruct e2 as [|p|p] eqn:Ee2; try lia.
    eexists. split; [reflexivity|]. split; [|split; reflexivity]. split.
    + apply Z.div_pos; lia.
    + change (Z.pos p) with (- Z.neg p).
      assert (Z.pos mf / 2 ^ (- Z.neg p) < K + 1); [|lia].
      apply Z.div_lt_upper_bound; [lia|]. nia.
Qed.

Lemma valid_mantissa_lt (m : positive) (e : Z) :
  valid_double (S754_finite false m e) = true -> Zpos m < 2 ^ 53.
Proof.
  unfold valid_double, valid_binary, bounded, canonical_mantissa.
  intros H. apply andb_true_iff in H as [H _]. apply Z.eqb_eq in H.
  pose proof (digits2_pos_bounds m) as [_ Hhi].
  assert (Zpos (digits2_pos m) <= 53)
    by (unfold fexp, emin, F64.prec, F64.emax in H; lia).
  assert (2 ^ Zpos (digits2_pos m) <= 2 ^ 53)
    by (apply Z.pow_le_mono_r; lia).
  lia.
Qed.

(** A well-formed double between 0 and the double [mK * 2^eK = hi] is a zero
    or a positive [m * 2^e] with [m <= hi * 2^(-e)]. *)
Lemma in_range_mantissa (x : float) (hi : Z) (mK : positive) (eK : Z) :
  valid_double x = true ->
  F64.leb (F64.of_Z 0) x = true ->
  F64.leb x (S754_finite false mK eK) = true ->
  2 ^ 52 <= Zpos mK -> eK < 0 -> Zpos mK = hi * 2 ^ (- eK) ->
  (exists s, x = S754_zero s)
  \/ (exists m e, x = S754_finite false m e /\ e < 0
                  /\ Zpos m <= hi * 2 ^ (- e)).
Proof.
  intros Hv H0 Hhi HmK HeK HK.
  destruct x as [s|s| |s m e]; try discriminate.
  - left. now exists s.
  - destruct s; discriminate.
  - destruct s; [discriminate|]. right. exists m, e.
    split; [reflexivity|].
    pose proof (valid_mantissa_lt m e Hv) as Hm.
    unfold F64.leb, SFleb in Hhi. cbn [SFcompare] in Hhi.
    destruct (Z.compare_spec e eK) as [E|E|E]; try discriminate.
    + subst e. split; [lia|]. rewrite <- HK.
      change (Pos.compare_cont Eq m mK) with (Zpos m ?= Zpos mK) in Hhi.
      destruct (Z.compare_spec (Zpos m) (Zpos mK)); try discriminate; lia.
    + split; [lia|].
      replace (- e) with ((- eK) + (eK - e)) by lia.
      rewrite pow2_split by lia. rewrite Z.mul_assoc, <- HK.
      assert (2 <= 2 ^ (eK - e)).
      { change 2 with (2 ^ 1) at 1. apply Z.pow_le_mono_r; lia. }
      change (2 ^ 53) with (2 ^ 52 * 2) in Hm. nia.
Qed.

(** The product of two well-formed doubles within [0, hx] and [0, hy]. *)
Lemma mul_bounded (x y : float) (hx hy k : Z) (mx my : positive) (ex ey : Z) :
  valid_double x = true -> valid_double y = true ->
  F64.leb (F64.of_Z 0) x = true -> F64.leb x (S754_finite false mx ex) = true ->
  F64.leb (F64.of_Z 0) y = true -> F64.leb y (S754_finite false my ey) = true ->
  2 ^ 52 <= Zpos mx -> ex < 0 -> Zpos mx = hx * 2 ^ (- ex) ->
  2 ^ 52 <= Zpos my -> ey < 0 -> Zpos my = hy * 2 ^ (- ey) ->
  1 <= hx * hy < 2 ^ k -> 0 <= k <= 51 ->
  exists n,
    py_int (F64.mul x y) = Ok n /\ 0 <= n <= hx * hy
    /\ F64.is_finite (F64.mul x y) = true
    /\ F64.leb (F64.of_Z 0) (F64.mul x y) = true.
Proof.
  intros Hvx Hvy Hx0 Hx1 Hy0 Hy1 Hmx Hex HKx Hmy Hey HKy HK Hk.
  destruct (in_range_mantissa x hx mx ex Hvx Hx0 Hx1 Hmx Hex HKx)
    as [[sx ->]|(m1 & e1 & -> & He1 & Hm1)];
  destruct (in_range_mantissa y hy my ey Hvy Hy0 Hy1 Hmy Hey HKy)
    as [[sy ->]|(m2 & e2 & -> & He2 & Hm2)];
  try (exists 0; repeat split; lia).
  unfold F64.mul. cbn [SFmul xorb].
  apply (round_bounded (Zpos (m1 * m2)) (e1 + e2) (hx * hy) k); try lia.
  rewrite Pos2Z.inj_mul.
  replace (- (e1 + e2)) with ((- e1) + (- e2)) by lia.
  rewrite pow2_split by lia.
  assert (0 < 2 ^ (- e1)) by (apply Z.pow_pos_nonneg; lia).
  assert (0 < 2 ^ (- e2)) by (apply Z.pow_pos_nonneg; lia).
  nia.
Qed.

(** For a well-formed probability in [0,1] the progress value is in 0..100. *)
Lemma percent_in_range (p : float) :
  valid_double p = true -> Spec.in_unit_interval p = true ->
  exists n, py_int (F64.mul p (F64.of_Z 100)) = Ok n /\ 0 <= n <= 100.
Proof.
  intros Hv H. apply andb_true_iff in H as [H0 H1].
  destruct (mul_bounded p (F64.of_Z 100) 1 100 7
              4503599627370496 7036874417766400 (-52) (-46))
    as (n & Hn & Hr & _); trivial; try reflexivity; try lia.
  exists n. split; trivial.
Qed.

(** X10: for a well-formed failure probability in [0,1] the overview never
    fails: [int(probability * 100)] is an int within 0..100, the progress bar
    accepts it, and the tab shows the probability, the bar, the remaining
    hours, the health status and the advisory. *)
Theorem proper_probability_always_renders (r : Prediction) :
  valid_double (probability r) = true ->
  Spec.in_unit_interval (probability r) = true ->
  exists percent,
    py_int (F64.mul (probability r) (F64.of_Z 100)) = Ok percent
    /\ 0 <= percent <= 100
    /\ forall tr, overview r tr = (Ok tt, tr ++ overview_events r percent).
Proof.
  intros Hv Hu. destruct (percent_in_range _ Hv Hu) as (n & Hn & Hr).
  exists n. repeat split; try lia; trivial.
  intros tr. now apply overview_run.
Qed.

Lemma quarter_probability_renders :
  exists percent,
    py_int (F64.mul Cases.quarter (F64.of_Z 100)) = Ok percent
    /\ 0 <= percent <= 100
    /\ forall tr,
         overview (Cases.prediction_with Cases.quarter) tr
         = (Ok tt,
            tr ++ overview_events (Cases.prediction_with Cases.quarter) percent).
Proof.
  apply (proper_probability_always_renders
           (Cases.prediction_with Cases.quarter)); reflexivity.
Defined.

(** X15: for valid inputs given as well-formed doubles the stress index
    neither overflows nor turns NaN or negative: it is a finite double, at
    least 0, whose integer part is at most 4000 = 200 * 20. *)
Theorem stress_index_range (i : Inputs) :
  Spec.valid_inputs i = true ->
  valid_double (torque i) = true -> valid_double (vibration i) = true ->
  exists n,
    F64.is_finite (stress_index (torque i) (vibration i)) = true
    /\ F64.leb (F64.of_Z 0) (stress_index (torque i) (vibration i)) = true
    /\ py_int (stress_index (torque i) (vibration i)) = Ok n
    /\ 0 <= n <= 4000.
Proof.
  intros H Ht Hv. split_valid H.
  repeat match goal with
  | Hr : Spec.in_range _ _ _ = true |- _ =>
      apply andb_true_iff in Hr; destruct Hr
  end.
  destruct (mul_bounded (torque i) (vibration i) 200 20 12
              7036874417766400 5629499534213120 (-45) (-48))
    as (n & Hn & Hr & Hf & Hpos); trivial; try reflexivity; try lia.
  exists n. unfold stress_index. repeat split; trivial; lia.
Qed.

Lemma stress_index_range_scenario1 :
  exists n,
    F64.is_finite (stress_index (F64.of_Z 100) (F64.of_Z 2)) = true
    /\ F64.leb (F64.of_Z 0) (stress_index (F64.of_Z 100) (F64.of_Z 2)) = true
    /\ py_int (stress_index (F64.of_Z 100) (F64.of_Z 2)) = Ok n
    /\ 0 <= n <= 4000.
Proof.
  apply (stress_index_range Sample.scenario1); reflexivity.
Defined.

(* ===================================================================== *)
(** * What a run can and cannot show *)
(* ===================================================================== *)

(** X11: results are shown only after a successful inference: when a run
    renders anything in a tab, the predict button was pressed, the frame was
    built and the inference returned a prediction. *)
Theorem results_need_a_successful_inference (env : Env) (model : Classifier)
    (rul_model : Regressor) (pre : Preprocessor) :
  load_classifier (store env) "best_model.pkl" = Ok model ->
  load_regressor (store env) "rul_model.pkl" = Ok rul_model ->
  load_preprocessor (store env) "preprocessor.pkl" = Ok pre ->
  existsb shows_result (snd (run env)) = true ->
  predict_button (ui env) = true
  /\ exists df r,
       feature_engineering (ui env) [] = (Ok df, [])
       /\ infer pre model rul_model df = Ok r.
Proof.
  intros Hm Hr Hp H.
  rewrite (run_loaded env model rul_model pre Hm Hr Hp) in H.
  destruct (predict_button (ui env)); cbv iota in H.
  - split; [reflexivity|].
    pose proof (feature_engineering_run (ui env)) as Hfe.
    destruct (operator_level (operator_exp (ui env))) as [e|level].
    + erewrite bind_raise in H
        by (apply bind_raise; rewrite Hfe; reflexivity).
      discriminate H.
    + set (df := input_df (ui env) (temp (ui env))
                   (F64.mul (torque (ui env)) (vibration (ui env)))
                   (working_hours (ui env)) level) in *.
      destruct (infer pre model rul_model df) as [e|r] eqn:Hi.
      * erewrite bind_raise in H
          by (unfold prediction_cycle; erewrite bind_ok by apply Hfe;
              apply bind_raise; rewrite Hi; reflexivity).
        discriminate H.
      * exists df, r. split; [apply Hfe|exact Hi].
  - do 2 erewrite bind_ok in H by apply render_run.
    rewrite render_run in H. discriminate H.
Qed.

Lemma scenario1_results_come_from_inference :
  predict_button (ui Sample.env_tree) = true
  /\ exists df r,
       feature_engineering (ui Sample.env_tree) [] = (Ok df, [])
       /\ infer Sample.preprocessor Sample.healthy_model
                (Sample.regressor (F64.of_Z 1500)) df = Ok r.
Proof.
  apply (results_need_a_successful_inference Sample.env_tree
           Sample.healthy_model (Sample.regressor (F64.of_Z 1500))
           Sample.preprocessor); reflexivity.
Defined.

Lemma prediction_cycle_only_renders (P : event -> bool) (sh : Shap)
    (pre : Preprocessor) (model : Classifier) (rul_model : Regressor)
    (i : Inputs) :
  (forall p e, P (Render p e) = true) ->
  emits P (prediction_cycle sh pre model rul_model i).
Proof.
  intros HP.
  unfold prediction_cycle, feature_engineering, overview, explainability,
    model_info, progress, render.
  repeat first
    [ apply emits_bind; [|intros]
    | apply emits_if
    | apply emits_try_except
    | apply emits_ret
    | apply emits_call
    | apply emits_throw
    | apply emits_emit; apply HP ].
Qed.

(** X12: whatever the artifacts answer and whether or not the button is
    pressed, a run that has loaded its artifacts reads the thirteen sidebar
    widgets once each, in the order of the script, right after the page head
    and before the tab bar; what follows neither reads a widget nor loads an
    artifact. *)
Theorem widgets_are_read_once_before_the_cycle (env : Env)
    (model : Classifier) (rul_model : Regressor) (pre : Preprocessor) :
  load_classifier (store env) "best_model.pkl" = Ok model ->
  load_regressor (store env) "rul_model.pkl" = Ok rul_model ->
  load_preprocessor (store env) "preprocessor.pkl" = Ok pre ->
  exists rest,
    snd (run env)
    = loads ++ page_head ++ sidebar_events ++ tabs_event ++ rest
    /\ forallb quiet rest = true.
Proof.
  intros Hm Hr Hp. rewrite (run_loaded env model rul_model pre Hm Hr Hp).
  match goal with
  | |- context [snd (?m ?tr)] => assert (emits quiet m) as Hrest
  end.
  { apply emits_bind;
      [|intros; unfold render;
        repeat first [apply emits_bind; [|intros]
                     | apply emits_emit; reflexivity]].
    apply emits_if.
    - apply prediction_cycle_only_renders. reflexivity.
    - unfold render. apply emits_emit. reflexivity. }
  destruct (Hrest (loads ++ page_head ++ sidebar_events ++ tabs_event))
    as (evs & E & F).
  exists evs. rewrite E. repeat rewrite <- app_assoc. split; trivial.
Qed.

Lemma widgets_are_read_once_when_idle :
  exists rest,
    snd (run Sample.env_idle)
    = loads ++ page_head ++ sidebar_events ++ tabs_event ++ rest
    /\ forallb quiet rest = true.
Proof.
  apply (widgets_are_read_once_before_the_cycle Sample.env_idle
           Sample.healthy_model (Sample.regressor (F64.of_Z 1500))
           Sample.preprocessor); reflexivity.
Defined.

(** X14: the shape of the frame does not depend on the readings: whenever
    the feature engineering step returns a frame, for readings inside or
    outside their domains, the trace is untouched and the frame has the
    sixteen columns of the dict literal, in its order, pairwise distinct (no
    key overrides another), with one row each. *)
Theorem frame_shape_is_fixed (i : Inputs) (df : DataFrame) (tr tr' : trace) :
  feature_engineering i tr = (Ok df, tr') ->
  tr' = tr
  /\ columns df = map fst Spec.fields
  /\ NoDup (columns df)
  /\ Forall (fun col => length (snd col) = 1%nat) df.
Proof.
  rewrite feature_engineering_run.
  destruct (operator_level (operator_exp i)) as [e|level];
    [discriminate|].
  intros H. injection H as <- <-.
  split; [reflexivity|]. split; [reflexivity|]. split.
  - change (NoDup (map fst Spec.fields)).
    apply (bool_decide_unpack _). vm_compute. exact I.
  - unfold input_df. repeat constructor.
Qed.

Lemma frame_shape_scenario1 :
  [] = ([] : trace)
  /\ columns (input_df Sample.scenario1 (F64.of_Z 50) (F64.of_Z 200) 1000 3)
     = map fst Spec.fields
  /\ NoDup (columns (input_df Sample.scenario1 (F64.of_Z 50) (F64.of_Z 200)
                       1000 3))
  /\ Forall (fun col => length (snd col) = 1%nat)
            (input_df Sample.scenario1 (F64.of_Z 50) (F64.of_Z 200) 1000 3).
Proof.
  apply (frame_shape_is_fixed Sample.scenario1 _ [] []). reflexivity.
Defined.

(* ===================================================================== *)
(** * The advisory follows the order of the estimates *)
(* ===================================================================== *)

Lemma leb_trans (x y z : float) :
  F64.leb x y = true -> F64.leb y z = true -> F64.leb x z = true.
Proof.
  unfold F64.leb, SFleb.
  destruct x as [sx|sx| |sx mx ex], y as [sy|sy| |sy my ey],
    z as [sz|sz| |sz mz ez]; simpl; try discriminate;
    repeat match goal with s : bool |- _ => destruct s end; simpl;
    try discriminate; try reflexivity; intros H1 H2;
    F64Facts.compare_cases; try reflexivity; try lia; try congruence.
Qed.

Lemma ltb_leb_trans (x y z : float) :
  F64.ltb x y = true -> F64.leb y z = true -> F64.ltb x z = true.
Proof.
  unfold F64.leb, F64.ltb, SFleb, SFltb.
  destruct x as [sx|sx| |sx mx ex], y as [sy|sy| |sy my ey],
    z as [sz|sz| |sz mz ez]; simpl; try discriminate;
    repeat match goal with s : bool |- _ => destruct s end; simpl;
    try discriminate; try reflexivity; intros H1 H2;
    F64Facts.compare_cases; try reflexivity; try lia; try congruence.
Qed.

Lemma leb_right_not_nan (x y : float) :
  F64.leb x y = true -> F64.is_nan y = false.
Proof. destruct y; trivial. destruct x; discriminate. Qed.

(** X13: the advisory never gets more alarming as the estimate grows: for
    estimates [a <= b], if [a] is told "sufficient remaining life" so is
    [b], and if [b] is told "critically low" so is [a]. *)
Theorem advisory_is_monotone (a b : float) :
  F64.leb a b = true ->
  (rul_advisory a = sufficient_life -> rul_advisory b = sufficient_life)
  /\ (rul_advisory b = critically_low -> rul_advisory a = critically_low).
Proof.
  intros Hab. unfold rul_advisory. split.
  - destruct (F64.gtb a (F64.of_Z 1000)) eqn:Ga.
    + intros _.
      assert (F64.gtb b (F64.of_Z 1000) = true) as ->
        by exact (ltb_leb_trans _ _ _ Ga Hab).
      reflexivity.
    + destruct (F64.gtb a (F64.of_Z 300)); discriminate.
  - destruct (F64.gtb b (F64.of_Z 1000)) eqn:G1; [discriminate|].
    destruct (F64.gtb b (F64.of_Z 300)) eqn:G3; [discriminate|].
    intros _.
    assert (F64.leb b (F64.of_Z 300) = true) as Hb.
    { apply F64Facts.not_gtb_leb; trivial.
      exact (leb_right_not_nan _ _ Hab). }
    pose proof (leb_trans _ _ _ Hab Hb) as Ha.
    assert (F64.gtb a (F64.of_Z 300) = false) as ->
      by exact (F64Facts.leb_not_gtb _ _ Ha).
    assert (F64.ltb (F64.of_Z 300) (F64.of_Z 1000) = true) as H31
      by reflexivity.
    pose proof (F64Facts.leb_ltb_trans _ _ _ Ha H31) as Ha1.
    apply F64Facts.ltb_leb, F64Facts.leb_not_gtb in Ha1.
    now rewrite Ha1.
Qed.

Lemma advisory_between_200_and_250 :
  (rul_advisory (F64.of_Z 200) = sufficient_life ->
   rul_advisory (F64.of_Z 250) = sufficient_life)
  /\ (rul_advisory (F64.of_Z 250) = critically_low ->
      rul_advisory (F64.of_Z 200) = critically_low).
Proof.
  apply (advisory_is_monotone (F64.of_Z 200) (F64.of_Z 250)). reflexivity.
Defined.

(* ===================================================================== *)
(** * A cycle that cannot fail *)
(* ===================================================================== *)

(** X1: once the inference has returned a well-formed failure probability
    in [0,1], the rest of the run cannot fail on an [Exception]: whatever the
    attribution step does short of a [BaseException], the run ends normally
    with the complete overview, then either the waterfall plot or the
    fallback text, then the summary tab and the footer. *)
Theorem proper_prediction_is_always_presented (env : Env)
    (model : Classifier) (rul_model : Regressor) (pre : Preprocessor)
    (df : DataFrame) (r : Prediction) :
  load_classifier (store env) "best_model.pkl" = Ok model ->
  load_regressor (store env) "rul_model.pkl" = Ok rul_model ->
  load_preprocessor (store env) "preprocessor.pkl" = Ok pre ->
  predict_button (ui env) = true ->
  feature_engineering (ui env) [] = (Ok df, []) ->
  infer pre model rul_model df = Ok r ->
  valid_double (probability r) = true ->
  Spec.in_unit_interval (probability r) = true ->
  (forall name,
     explain (shap env) pre model (X_input r) <> Raise (BaseRaised name)) ->
  exists percent explanation,
    0 <= percent <= 100
    /\ (explanation = explanation_fallback_events
        \/ exists fig,
             explanation
             = [ Render Tab2 (st_subheader "Prediction Explanation (SHAP)");
                 Render Tab2 (st_pyplot fig) ])
    /\ run env
       = (Ok tt,
          loads ++ page_head ++ sidebar_events ++ tabs_event
          ++ overview_events r percent
          ++ explanation
          ++ model_info_events
          ++ page_foot).
Proof.
  intros Hm Hr Hp Hb Hdf Hi Hv Hu Hbase.
  destruct (percent_in_range _ Hv Hu) as (percent & Hpc & Hrange).
  assert (exists explanation,
            (explanation = explanation_fallback_events
             \/ exists fig,
                  explanation
                  = [ Render Tab2 (st_subheader "Prediction Explanation (SHAP)");
                      Render Tab2 (st_pyplot fig) ])
            /\ forall tr,
                 explainability (shap env) pre model (X_input r) tr
                 = (Ok tt, tr ++ explanation))
    as (explanation & Hshape & Hex).
  { destruct (explain (shap env) pre model (X_input r)) as [e|fig] eqn:He.
    - exists explanation_fallback_events. split; [now left|].
      intros tr. apply (explainability_fallback _ _ _ _ e); trivial.
      destruct e; trivial. now destruct (Hbase name).
    - eexists. split; [right; now exists fig|].
      intros tr. now apply explainability_plot. }
  exists percent, explanation. split; [exact Hrange|]. split; [exact Hshape|].
  rewrite (run_loaded env model rul_model pre Hm Hr Hp), Hb.
  erewrite bind_ok.
  2:{ unfold prediction_cycle.
      erewrite bind_ok by (apply feature_engineering_any_trace, Hdf).
      erewrite bind_ok by (rewrite Hi; reflexivity).
      erewrite bind_ok by (apply overview_run; eassumption).
      erewrite bind_ok by apply Hex.
      apply model_info_run. }
  erewrite bind_ok by apply render_run.
  rewrite render_run. unfold page_foot.
  repeat rewrite <- app_assoc. reflexivity.
Qed.

Lemma healthy_machine_is_always_presented :
  exists percent explanation,
    0 <= percent <= 100
    /\ (explanation = explanation_fallback_events
        \/ exists fig,
             explanation
             = [ Render Tab2 (st_subheader "Prediction Explanation (SHAP)");
                 Render Tab2 (st_pyplot fig) ])
    /\ run Sample.env_no_tree
       = (Ok tt,
          loads ++ page_head ++ sidebar_events ++ tabs_event
          ++ overview_events (Cases.prediction_with Cases.quarter) percent
          ++ explanation
          ++ model_info_events
          ++ page_foot).
Proof.
  apply (proper_prediction_is_always_presented Sample.env_no_tree
           Sample.healthy_model (Sample.regressor (F64.of_Z 1500))
           Sample.preprocessor
           (input_df Sample.scenario1 (F64.of_Z 50) (F64.of_Z 200) 1000 3)
           (Cases.prediction_with Cases.quarter));
    try reflexivity.
  intros name. discriminate.
Defined.
